(** * The payroll line scanner of [becycle_invoice.py]

    A shallow embedding of [parse_payroll_pdf] (src/becycle_invoice.py,
    lines 47-206), starting from the list [lines] that the function builds
    out of the pages of the document, and the properties of the scan.

    Python values are modelled as follows.
    - A [str] is a list of Unicode code points.  The predicates behind
      [str.strip], [str.split], the regular-expression classes [\s] and [\d]
      and [int] are the ones of CPython 3.11 (Unicode 14.0).
    - The record dictionaries live in a store: [records] and
      [current_record] hold references, as in Python, and an assignment
      [current_record[k] = v] writes the store.
    - An exception is the outcome [Raise]; list indexing and [int] can raise. *)

From Stdlib Require Import String Ascii DecimalPos.
From stdpp Require Import base numbers option list.

Local Open Scope N_scope.

(** ** Python strings *)

Module PyStr.

Definition char := N.
Definition str := list char.

(** Decoding of a literal of this file (UTF-8 bytes) into code points. *)
Fixpoint utf8 (acc : N) (need : nat) (bs : list N) : str :=
  match bs with
  | [] => []
  | b :: bs' =>
      match need with
      | S n =>
          let acc' := acc * 64 + b `mod` 64 in
          match n with
          | O => acc' :: utf8 0 0 bs'
          | S _ => utf8 acc' n bs'
          end
      | O =>
          if b <? 128 then b :: utf8 0 0 bs'
          else if b <? 224 then utf8 (b `mod` 32) 1 bs'
          else if b <? 240 then utf8 (b `mod` 16) 2 bs'
          else utf8 (b `mod` 8) 3 bs'
      end
  end.

Definition lit (s : string) : str :=
  utf8 0 0 (List.map N_of_ascii (list_ascii_of_string s)).

(** [str.isspace] of one character; also the class [\s]. *)
Definition isspace (c : char) : bool :=
  ((9 <=? c) && (c <=? 13)) || ((28 <=? c) && (c <=? 32))
  || (c =? 133) || (c =? 160) || (c =? 5760)
  || ((8192 <=? c) && (c <=? 8202))
  || (c =? 8232) || (c =? 8233) || (c =? 8239) || (c =? 8287)
  || (c =? 12288).

(** The code points of the digit zero of every decimal script (general
    category Nd); the nine that follow each are its digits one to nine. *)
Definition decimal_zeros : list N :=
  [48; 1632; 1776; 1984; 2406; 2534; 2662; 2790; 2918; 3046; 3174; 3302;
   3430; 3558; 3664; 3792; 3872; 4160; 4240; 6112; 6160; 6470; 6608; 6784;
   6800; 6992; 7088; 7232; 7248; 42528; 43216; 43264; 43472; 43504; 43600;
   44016; 65296; 66720; 68912; 69734; 69872; 69942; 70096; 70384; 70736;
   70864; 71248; 71360; 71472; 71904; 72016; 72784; 73040; 73120; 92768;
   92864; 93008; 120782; 120792; 120802; 120812; 120822; 123200; 123632;
   125264; 130032].

Fixpoint decimal_in (zs : list N) (c : char) : option N :=
  match zs with
  | [] => None
  | z :: zs' =>
      if (z <=? c) && (c <? z + 10) then Some (c - z) else decimal_in zs' c
  end.

(** The decimal value of a character, when it has one. *)
Definition decimal (c : char) : option N := decimal_in decimal_zeros c.

(** The class [\d]. *)
Definition isdigit (c : char) : bool :=
  match decimal c with Some _ => true | None => false end.

Fixpoint dropwhile (p : char → bool) (s : str) : str :=
  match s with
  | [] => []
  | c :: s' => if p c then dropwhile p s' else s
  end.

Fixpoint takewhile (p : char → bool) (s : str) : str :=
  match s with
  | [] => []
  | c :: s' => if p c then c :: takewhile p s' else []
  end.

Definition lstrip (s : str) : str := dropwhile isspace s.
Definition rstrip (s : str) : str := reverse (dropwhile isspace (reverse s)).

(** [s.strip()] *)
Definition strip (s : str) : str := rstrip (lstrip s).

(** Truth value of a string: [if s:]. *)
Definition truthy (s : str) : bool :=
  match s with [] => false | _ :: _ => true end.

(** [s.split()]: the maximal runs of characters that are not whitespace. *)
Fixpoint split_ws_from (cur : str) (s : str) : list str :=
  match s with
  | [] => match cur with [] => [] | _ => [reverse cur] end
  | c :: s' =>
      if isspace c
      then match cur with
           | [] => split_ws_from [] s'
           | _ => reverse cur :: split_ws_from [] s'
           end
      else split_ws_from (c :: cur) s'
  end.

Definition split_ws (s : str) : list str := split_ws_from [] s.

(** [s.split(maxsplit=1)]: the first word, and the rest of the string from
    its next character that is not whitespace, when there is one. *)
Definition split_ws_1 (s : str) : list str :=
  match lstrip s with
  | [] => []
  | t =>
      let w := takewhile (λ c, negb (isspace c)) t in
      match lstrip (dropwhile (λ c, negb (isspace c)) t) with
      | [] => [w]
      | r => [w; r]
      end
  end.

(** [s.split(sep, 1)] for a separator of one character. *)
Fixpoint split_char_1_from (sep : char) (acc : str) (s : str) : list str :=
  match s with
  | [] => [reverse acc]
  | c :: s' =>
      if c =? sep then [reverse acc; s']
      else split_char_1_from sep (c :: acc) s'
  end.

Definition split_char_1 (sep : char) (s : str) : list str :=
  split_char_1_from sep [] s.

(** [s.split(sep)] for a separator of one character. *)
Fixpoint split_char_from (sep : char) (acc : str) (s : str) : list str :=
  match s with
  | [] => [reverse acc]
  | c :: s' =>
      if c =? sep then reverse acc :: split_char_from sep [] s'
      else split_char_from sep (c :: acc) s'
  end.

Definition split_char (sep : char) (s : str) : list str :=
  split_char_from sep [] s.

(** [sep.join(ws)] *)
Fixpoint join (sep : str) (ws : list str) : str :=
  match ws with
  | [] => []
  | [w] => w
  | w :: ws' => w ++ sep ++ join sep ws'
  end.

(** [s.startswith(p)] *)
Fixpoint startswith (s p : str) : bool :=
  match p, s with
  | [], _ => true
  | _ :: _, [] => false
  | a :: p', c :: s' => (c =? a) && startswith s' p'
  end.

(** [s.endswith(p)] *)
Definition endswith (s p : str) : bool := startswith (reverse s) (reverse p).

(** [s.rfind(c)], with [None] for the result [-1]. *)
Fixpoint rfind (s : str) (c : char) : option nat :=
  match s with
  | [] => None
  | d :: s' =>
      match rfind s' c with
      | Some k => Some (S k)
      | None => if d =? c then Some O else None
      end
  end.

End PyStr.
Export PyStr.

(** ** Regular expressions

    Each pattern of the source is a matcher written from left to right in
    the order of the pattern.  The character classes that follow one another
    in these patterns are disjoint (digits, whitespace, [/], [(], [)], the
    currency sign), so the greedy choice of every [+] and [*] is the only one
    that can succeed and no backtracking into them is modelled; the one
    bounded repetition [\d{1,2}] tries two digits, then one. *)

Module PyRe.

Definition euro : char := 8364.
Definition newline : char := 10.

Definition expect (c : char) (s : str) : option str :=
  match s with
  | d :: s' => if d =? c then Some s' else None
  | [] => None
  end.

(** [\d+] at the start of [s]: the digits matched and what follows. *)
Definition digits1 (s : str) : option (str * str) :=
  match takewhile isdigit s with
  | [] => None
  | ds => Some (ds, dropwhile isdigit s)
  end.

(** [\d{n}] at the start of [s]: what follows. *)
Fixpoint digits_n (n : nat) (s : str) : option str :=
  match n with
  | O => Some s
  | S n' =>
      match s with
      | c :: s' => if isdigit c then digits_n n' s' else None
      | [] => None
      end
  end.

(** [$]: the end of the string, or just before a newline that ends it. *)
Definition at_dollar (s : str) : bool :=
  match s with
  | [] => true
  | [c] => c =? newline
  | _ => false
  end.

Definition matched {X} (o : option X) (k : X → bool) : bool :=
  match o with Some x => k x | None => false end.

(** [\.\d{2}\.\d{4}$] *)
Definition date_tail (s : str) : bool :=
  matched (s1 ← expect 46 s; s2 ← digits_n 2 s1; s3 ← expect 46 s2; digits_n 4 s3)
          at_dollar.

(** [re.match(r'\d{1,2}\.\d{2}\.\d{4}$', s)] *)
Definition re_date (s : str) : bool :=
  matched (digits_n 2 s) date_tail || matched (digits_n 1 s) date_tail.

(** [:\d{2}] *)
Definition time_tail (s : str) : bool :=
  matched (s1 ← expect 58 s; digits_n 2 s1) (λ _, true).

(** [re.match(r'^\d{1,2}:\d{2}', s)] *)
Definition re_time (s : str) : bool :=
  matched (digits_n 2 s) time_tail || matched (digits_n 1 s) time_tail.

(** [re.match(r'\(\d+\)\s*$', s)] *)
Definition re_capacity (s : str) : bool :=
  matched (s1 ← expect 40 s; ds ← digits1 s1; expect 41 ds.2)
          (λ r, at_dollar (lstrip r)).

(** [re.search(r'\(\d+\)\s*$', s)] *)
Fixpoint search_capacity (s : str) : bool :=
  re_capacity s || match s with [] => false | _ :: s' => search_capacity s' end.

(** [(\d+)\s*/\s*(\d+)\s*/\s*(\d+)] at the start of [s]: the three groups
    and what follows the match. *)
Definition triple_at (s : str) : option (str * str * str * str) :=
  g1 ← digits1 s;
  s1 ← expect 47 (lstrip g1.2);
  g2 ← digits1 (lstrip s1);
  s2 ← expect 47 (lstrip g2.2);
  g3 ← digits1 (lstrip s2);
  Some (g1.1, g2.1, g3.1, g3.2).

(** [re.search(r'(\d+\s*/\s*\d+\s*/\s*\d+)', s)]: the start of the match. *)
Fixpoint search_triple (s : str) : option nat :=
  match triple_at s with
  | Some _ => Some O
  | None =>
      match s with
      | [] => None
      | _ :: s' => S <$> search_triple s'
      end
  end.

(** [re.match] of the triple pattern with its three groups, followed by
    [\s*] and a fourth group of any characters but a newline ([.], greedy):
    the four groups. *)
Definition re_ban (s : str) : option (str * str * str * str) :=
  g ← triple_at s;
  Some (g.1.1.1, g.1.1.2, g.1.2,
        takewhile (λ c, negb (c =? newline)) (lstrip g.2)).

(** The class [[\d.,]]. *)
Definition isamount (c : char) : bool := isdigit c || (c =? 46) || (c =? 44).

(** [([\d.,]+)\s*€] at the start of [s]: the group and what follows. *)
Definition amount_at (s : str) : option (str * str) :=
  match takewhile isamount s with
  | [] => None
  | v => s1 ← expect euro (lstrip (dropwhile isamount s)); Some (v, s1)
  end.

Fixpoint findall_amounts_from (fuel : nat) (s : str) : list str :=
  match fuel with
  | O => []
  | S fuel' =>
      match amount_at s with
      | Some (v, r) => v :: findall_amounts_from fuel' r
      | None =>
          match s with
          | [] => []
          | _ :: s' => findall_amounts_from fuel' s'
          end
      end
  end.

(** [re.findall(r'([\d.,]+)\s*€', s)]: the matches do not overlap, and none
    is empty, so [length s] rounds reach the end of [s]. *)
Definition findall_amounts (s : str) : list str :=
  findall_amounts_from (length s) s.

End PyRe.
Export PyRe.
(** ** Outcomes of Python code *)

Inductive exn :=
  | IndexError   (* a list index out of range *)
  | ValueError   (* [int] of a string that is not a number, or too long *)
  | BadRef.      (* a reference to no object of the store *)

Inductive outcome (X : Type) :=
  | Ok (x : X)
  | Raise (e : exn)
  | OutOfFuel.   (* the loop was cut before its condition became false *)
Arguments Ok {X} x.
Arguments Raise {X} e.
Arguments OutOfFuel {X}.

Global Instance outcome_ret : MRet outcome := λ _ x, Ok x.
Global Instance outcome_bind : MBind outcome := λ _ _ f m,
  match m with
  | Ok x => f x
  | Raise e => Raise e
  | OutOfFuel => OutOfFuel
  end.

(** [l[k]], for [k] of either sign. *)
Definition getitem {X} (l : list X) (k : Z) : outcome X :=
  let n := Z.of_nat (length l) in
  let k' := (if k <? 0 then n + k else k)%Z in
  if ((k' <? 0) || (n <=? k'))%Z then Raise IndexError
  else match l !! Z.to_nat k' with
       | Some x => Ok x
       | None => Raise IndexError
       end.

(** [l[:-1]] *)
Definition but_last {X} (l : list X) : list X := take (length l - 1) l.

(** [int(s)] for a string of decimal digits, with the limit of [int] on the
    number of digits turned off ([sys.set_int_max_str_digits(0)]); the limit
    is added by [py_int_lim] below.  The other strings that [int] accepts (a
    sign, blanks around, underscores) count as errors here. *)
Definition py_int (s : str) : outcome Z :=
  match s with
  | [] => Raise ValueError
  | _ =>
      match mapM decimal s with
      | Some ds => Ok (Z.of_N (foldl (λ acc d, 10 * acc + d) 0 ds))
      | None => Raise ValueError
      end
  end.

(** [for _ in range(n): s = f(s)] *)
Fixpoint for_range {X} (n : nat) (f : X → outcome X) (x : X) : outcome X :=
  match n with
  | O => Ok x
  | S n' => x' ← f x; for_range n' f x'
  end.

(** ** The record dictionaries and the state of the scan *)

Module Rec.
Record t := mk {
  date : str;
  time : str;
  event : str;
  studio : str;
  B : option Z;
  A : option Z;
  N : option Z;
  total : option str
}.
Definition set_event (v : str) (r : t) : t :=
  mk (date r) (time r) v (studio r) (B r) (A r) (N r) (total r).
Definition set_studio (v : str) (r : t) : t :=
  mk (date r) (time r) (event r) v (B r) (A r) (N r) (total r).
Definition set_BAN (b a n : Z) (r : t) : t :=
  mk (date r) (time r) (event r) (studio r) (Some b) (Some a) (Some n) (total r).
Definition set_total (v : str) (r : t) : t :=
  mk (date r) (time r) (event r) (studio r) (B r) (A r) (N r) (Some v).
End Rec.

(** References are positions in the store. *)
Abbreviation loc := nat (only parsing).
Abbreviation store := (list Rec.t) (only parsing).

Record state := mkState {
  i : nat;
  current_date : option str;
  current_record : option loc;
  records : list loc;
  heap : store
}.

Definition set_i (v : nat) (st : state) : state :=
  mkState v (current_date st) (current_record st) (records st) (heap st).

(** [current_date = d; current_record = None] *)
Definition new_section (d : option str) (st : state) : state :=
  mkState (i st) d None (records st) (heap st).

(** The object a reference points to. *)
Definition deref (h : store) (l : loc) : outcome Rec.t :=
  match h !! l with
  | Some r => Ok r
  | None => Raise BadRef
  end.

(** The records a list of references points to. *)
Definition deref_all (h : store) (ls : list loc) : outcome (list Rec.t) :=
  match mapM (λ l, h !! l) ls with
  | Some rs => Ok rs
  | None => Raise BadRef
  end.

(** ** The scan *)

Definition day_names : list str :=
  [lit "Monday"; lit "Tuesday"; lit "Wednesday"; lit "Thursday";
   lit "Friday"; lit "Saturday"; lit "Sunday"].

Definition skip_lines : list str :=
  [lit "Time Event Type"; lit "Time"; lit "Event Type"; lit "Studio";
   lit "B / A /"; lit "B / A / N*"; lit "N*";
   lit "Base Bonus Total"; lit "Base"; lit "Bonus"; lit "Total";
   lit "Bookings Attended No-shows Base Bonus Total";
   lit "Bookings"; lit "Attended"; lit "No-shows"].

Definition space : str := [32].

(** [if date: ...] for [date] that is [None] or a string. *)
Definition date_active (d : option str) : bool :=
  match d with Some s => truthy s | None => false end.

(** Lines 94-95: [parts and parts[0] in day_names]. *)
Definition is_day_header (parts : list str) : outcome bool :=
  match parts with
  | [] => Ok false
  | _ => p0 ← getitem parts 0; Ok (bool_decide (p0 ∈ day_names))
  end.

(** Lines 96-100: the date of a header, on its line or on the next one. *)
Definition header_date (lines : list str) (parts : list str) (i : nat)
  : outcome (str * nat) :=
  date_str ← (if bool_decide (1 < length parts)%nat then getitem parts 1 else Ok []);
  if negb (truthy date_str) || negb (re_date date_str) then
    if bool_decide (i < length lines)%nat then
      nxt ← getitem lines (Z.of_nat i);
      if re_date (strip nxt) then
        nxt' ← getitem lines (Z.of_nat i);
        Ok (strip nxt', S i)
      else Ok (date_str, i)
    else Ok (date_str, i)
  else Ok (date_str, i).

(** Lines 117-129: the dictionary of a new record. *)
Definition new_record (current_date : str) (line : str) : outcome Rec.t :=
  let parts_time := split_char_1 32 line in
  time_str ← getitem parts_time 0;
  event_str ← (if bool_decide (1 < length parts_time)%nat
               then p ← getitem parts_time 1; Ok (strip p)
               else Ok []);
  Ok (Rec.mk current_date time_str event_str [] None None None None).

(** Lines 150-158: the duplicated word of the event part, if any, and the
    words that remain. *)
Definition dedup (words : list str) : outcome (option str * list str) :=
  if bool_decide (2 ≤ length words)%nat then
    w1 ← getitem words (-1);
    w2 ← getitem words (-2);
    if bool_decide (w1 = w2) then
      d ← getitem words (-1); Ok (Some d, but_last words)
    else
      w0 ← getitem words 0;
      w1' ← getitem words (-1);
      if bool_decide (w0 = w1') then
        d ← getitem words (-1); Ok (Some d, but_last words)
      else Ok (None, words)
  else Ok (None, words).

(** Lines 146-164: the split at the capacity marker; [None] when the inner
    test fails and control falls through to the triple. *)
Definition capacity_split (line : str) (r : Rec.t) : outcome (option Rec.t) :=
  match rfind line 40 with
  | Some cap_idx =>
      if re_capacity (drop cap_idx line) then
        let event_part := strip (take cap_idx line) in
        let studio_part := strip (drop cap_idx line) in
        '(duplicate, words) ← dedup (split_ws event_part);
        let event_part := join space words in
        let studio_part :=
          match duplicate with
          | Some d => if truthy d then strip (d ++ space ++ studio_part)
                      else studio_part
          | None => studio_part
          end in
        Ok (Some (Rec.set_studio studio_part (Rec.set_event event_part r)))
      else Ok None
  | None => Ok None
  end.

(** Lines 184-187: one round of the loop over the lines that end in the
    currency sign. *)
Definition take_value (lines : list str) (vi : list str * nat)
  : outcome (list str * nat) :=
  if bool_decide (vi.2 < length lines)%nat then
    l ← getitem lines (Z.of_nat vi.2);
    if endswith (strip l) [euro] then
      l' ← getitem lines (Z.of_nat vi.2);
      let val := strip l' in
      Ok (vi.1 ++ [if endswith val [euro] then strip (but_last val) else val],
          S vi.2)
    else Ok vi
  else Ok vi.

(** Lines 181-197: the total of the record, from what follows the triple. *)
Definition find_total (lines : list str) (rest : str) (i : nat) (r : Rec.t)
  : outcome (Rec.t * nat) :=
  if bool_decide (rest = []) then
    '(values, i') ← for_range 3 (take_value lines) ([], i);
    if bool_decide (length values = 3%nat) then
      v ← getitem values 2; Ok (Rec.set_total v r, i')
    else Ok (r, i')
  else
    let currency_vals := findall_amounts rest in
    if bool_decide (3 ≤ length currency_vals)%nat then
      v ← getitem currency_vals 2; Ok (Rec.set_total v r, i)
    else
      let parts_cur :=
        strip <$> filter (λ p, truthy (strip p) = true) (split_char euro rest) in
      if bool_decide (3 ≤ length parts_cur)%nat then
        v ← getitem parts_cur 2; Ok (Rec.set_total v r, i)
      else Ok (r, i).

(** Lines 169-200: the triple was found at [idx].  The result is the record,
    the cursor, and whether the record is appended to [records]. *)
Definition triple_branch (lines : list str) (line : str) (idx : nat) (i : nat)
    (r : Rec.t) : outcome (Rec.t * nat * bool) :=
  let studio_text := strip (take idx line) in
  let ba_text := strip (drop idx line) in
  let r := if truthy studio_text
           then Rec.set_studio (strip (Rec.studio r ++ space ++ studio_text)) r
           else r in
  match re_ban ba_text with
  | Some m =>
      b ← py_int m.1.1.1;
      a ← py_int m.1.1.2;
      n ← py_int m.1.2;
      let r := Rec.set_BAN b a n r in
      let rest := strip m.2 in
      '(r, i') ← find_total lines rest i r;
      Ok (r, i', true)
  | None => Ok (r, i, false)
  end.

(** Lines 133-204: a line read while a record is open.  The dictionary is
    read from the store once and written back once by the caller; nothing
    else reads the store in between. *)
Definition record_line (lines : list str) (line : str) (i : nat) (r : Rec.t)
  : outcome (Rec.t * nat * bool) :=
  if startswith line [40] then
    Ok (Rec.set_event (Rec.event r ++ space ++ line) r, i, false)
  else if bool_decide (Rec.event r = []) && bool_decide (Rec.studio r = [])
          && negb (search_capacity line)
          && negb (bool_decide (is_Some (search_triple line))) then
    Ok (Rec.set_event line r, i, false)
  else
    split ← (if bool_decide (Rec.event r = []) && search_capacity line
             then capacity_split line r else Ok None);
    match split with
    | Some r' => Ok (r', i, false)
    | None =>
        match search_triple line with
        | Some idx => triple_branch lines line idx i r
        | None =>
            Ok (Rec.set_studio
                  (if truthy (Rec.studio r)
                   then strip (Rec.studio r ++ space ++ line) else line) r,
                i, false)
        end
    end.

(** Lines 114-130: a time stamp opens a record; the open record that has no
    triple is appended to [records] first. *)
Definition open_record (d : str) (line : str) (st : state) : outcome state :=
  recs ← match current_record st with
         | Some l =>
             r ← deref (heap st) l;
             Ok (if bool_decide (Rec.B r = None)
                 then records st ++ [l] else records st)
         | None => Ok (records st)
         end;
  r' ← new_record d line;
  Ok (mkState (i st) (current_date st) (Some (length (heap st))) recs
              (heap st ++ [r'])).

(** Lines 132-204: the effect of [record_line] on the store and on
    [records]. *)
Definition update_record (lines : list str) (line : str) (l : loc) (st : state)
  : outcome state :=
  r ← deref (heap st) l;
  '(r', i', commit) ← record_line lines line (i st) r;
  let h := <[l := r']> (heap st) in
  if commit : bool
  then Ok (mkState i' (current_date st) None (records st ++ [l]) h)
  else Ok (mkState i' (current_date st) (current_record st) (records st) h).

(** Lines 87-204: one round of the loop [while i < len(lines)]. *)
Definition body (lines : list str) (st : state) : outcome state :=
  raw ← getitem lines (Z.of_nat (i st));
  let line := strip raw in
  let st := set_i (S (i st)) st in
  if negb (truthy line) || bool_decide (line ∈ skip_lines) then Ok st
  else
    let parts := split_ws_1 line in
    hd ← is_day_header parts;
    if hd : bool then
      '(date_str, i') ← header_date lines parts (i st);
      Ok (new_section (Some date_str) (set_i i' st))
    else if startswith line (lit "Totals:") then Ok (new_section None st)
    else if date_active (current_date st) then
      if re_time line then open_record (default [] (current_date st)) line st
      else match current_record st with
           | Some l => update_record lines line l st
           | None => Ok st
           end
    else Ok st.

(** The state after [k] rounds of the loop, or at its exit when that comes
    first. *)
Fixpoint rounds (k : nat) (lines : list str) (st : state) : outcome state :=
  match k with
  | O => Ok st
  | S k' =>
      if bool_decide (i st < length lines)%nat
      then st' ← body lines st; rounds k' lines st'
      else Ok st
  end.

(** The loop of lines 86-204, cut after [fuel] rounds. *)
Definition iter (fuel : nat) (lines : list str) (st : state) : outcome state :=
  st' ← rounds fuel lines st;
  if bool_decide (i st' < length lines)%nat then OutOfFuel else Ok st'.

(** The state at line 85, in a store that holds [h] already. *)
Definition init (h : store) : state := mkState 0 None None [] h.

(** Lines 85-206 run in the store [h]: the list [records] and the store. *)
Definition scan (h : store) (lines : list str) : outcome (list loc * store) :=
  st ← iter (length lines) lines (init h);
  Ok (records st, heap st).

(** The list that [parse_payroll_pdf] returns for the lines of a document,
    as the dictionaries it holds. *)
Definition parse_payroll_pdf (lines : list str) : outcome (list Rec.t) :=
  res ← scan [] lines;
  deref_all res.2 res.1.

(** ** The scan on values

    The same rounds on the dictionaries themselves instead of references to
    them.  The scan in the store is shown below to go through the same
    values; the claims are stated on the scan in the store. *)

Record view := mkView {
  v_i : nat;
  v_date : option str;
  v_cur : option Rec.t;
  v_out : list Rec.t
}.

Definition view_of (st : state) : view :=
  mkView (i st) (current_date st)
         (l ← current_record st; heap st !! l)
         (omap (λ l, heap st !! l) (records st)).

Definition vopen (d : str) (line : str) (v : view) : outcome view :=
  let out := match v_cur v with
             | Some r => if bool_decide (Rec.B r = None)
                         then v_out v ++ [r] else v_out v
             | None => v_out v
             end in
  r' ← new_record d line;
  Ok (mkView (v_i v) (v_date v) (Some r') out).

Definition vupdate (lines : list str) (line : str) (r : Rec.t) (v : view)
  : outcome view :=
  '(r', i', commit) ← record_line lines line (v_i v) r;
  if commit : bool
  then Ok (mkView i' (v_date v) None (v_out v ++ [r']))
  else Ok (mkView i' (v_date v) (Some r') (v_out v)).

Definition vbody (lines : list str) (v : view) : outcome view :=
  raw ← getitem lines (Z.of_nat (v_i v));
  let line := strip raw in
  let v := mkView (S (v_i v)) (v_date v) (v_cur v) (v_out v) in
  if negb (truthy line) || bool_decide (line ∈ skip_lines) then Ok v
  else
    let parts := split_ws_1 line in
    hd ← is_day_header parts;
    if hd : bool then
      '(date_str, i') ← header_date lines parts (v_i v);
      Ok (mkView i' (Some date_str) None (v_out v))
    else if startswith line (lit "Totals:") then
      Ok (mkView (v_i v) None None (v_out v))
    else if date_active (v_date v) then
      if re_time line then vopen (default [] (v_date v)) line v
      else match v_cur v with
           | Some r => vupdate lines line r v
           | None => Ok v
           end
    else Ok v.

Fixpoint vrounds (k : nat) (lines : list str) (v : view) : outcome view :=
  match k with
  | O => Ok v
  | S k' =>
      if bool_decide (v_i v < length lines)%nat
      then v' ← vbody lines v; vrounds k' lines v'
      else Ok v
  end.

(** ** Predicates of the claims *)

(** The triple of a record is set. *)
Definition triple_set (r : Rec.t) : Prop :=
  is_Some (Rec.B r) ∧ is_Some (Rec.A r) ∧ is_Some (Rec.N r).

(** None of the three numbers of a record is set, nor its total. *)
Definition triple_unset (r : Rec.t) : Prop :=
  Rec.B r = None ∧ Rec.A r = None ∧ Rec.N r = None ∧ Rec.total r = None.

(** Two states of a record with the same numbers and total. *)
Definition same_numbers (r r' : Rec.t) : Prop :=
  Rec.B r' = Rec.B r ∧ Rec.A r' = Rec.A r ∧ Rec.N r' = Rec.N r
  ∧ Rec.total r' = Rec.total r.

(** The number of lines at the head of [ls], three at most, that follow one
    another and end with the currency sign once stripped. *)
Fixpoint euro_run (n : nat) (ls : list str) : nat :=
  match n, ls with
  | S n', l :: ls' =>
      if endswith (strip l) [euro] then S (euro_run n' ls') else O
  | _, _ => O
  end.

(** The amount of such a line: the line without the sign. *)
Definition euro_value (l : str) : str := strip (but_last (strip l)).

(** The store of a scan keeps what it held: [h0] is untouched, the records
    of the list are in the store, and the open record is none of them. *)
Record store_ok (h0 : store) (st : state) : Prop := {
  ok_base : take (length h0) (heap st) = h0;
  ok_records : Forall (λ l, (length h0 ≤ l < length (heap st))%nat) (records st);
  ok_current : ∀ l, current_record st = Some l →
               (length h0 ≤ l < length (heap st))%nat ∧ l ∉ records st
}.

(** What holds of the values at every round. *)
Record view_ok (v : view) : Prop := {
  ok_cur : ∀ r, v_cur v = Some r → triple_unset r;
  ok_date : date_active (v_date v) = false → v_cur v = None;
  ok_out : Forall (λ r, triple_set r ∨ triple_unset r) (v_out v)
}.

(** ** Inputs of the examples *)

Definition d0402 : str := lit "04.02.2025".

(** An open record, as a time stamp alone on its line leaves it. *)
Definition fresh_record (event : str) : Rec.t :=
  Rec.mk d0402 (lit "18:30") event [] None None None None.

(** Two time stamps with no triple between them. *)
Definition flush_lines : list str :=
  [lit "Tuesday 04.02.2025"; lit "18:30 Spin Class"; lit "19:30 Yoga"].
Definition flush_state : state :=
  mkState 2 (Some d0402) (Some 0%nat) [] [fresh_record (lit "Spin Class")].

(** The line of scenario C, with an open record that has no event yet. *)
Definition pilates_lines : list str :=
  [lit "Tuesday 04.02.2025"; lit "18:30"; lit "Pilates Pilates Studio B (12)"].
Definition pilates_state : state :=
  mkState 2 (Some d0402) (Some 0%nat) [] [fresh_record []].

(** The lines of the duplicate test and what they split into: the line, the
    event and the studio. *)
Definition pilates_cases : list (str * str * str) :=
  [(lit "Pilates Pilates Studio B (12)", lit "Pilates Pilates Studio B",
    lit "(12)");
   (lit "Pilates Pilates (12)", lit "Pilates", lit "Pilates (12)")].

(** A header with text that is no date, and one with no text. *)
Definition foo_lines : list str :=
  [lit "Tuesday foo"; lit "18:30 Spin Class";
   lit "Studio A 10/8/2 5,00 € 10,00 € 40,00 €"].
Definition bare_lines : list str := [lit "Tuesday"; lit "18:30 Spin Class"].

(** A section closed by a totals line, then a time stamp. *)
Definition totals_lines : list str :=
  [lit "Tuesday 04.02.2025"; lit "Totals: 3"; lit "18:30 Spin Class"].

(** A triple with nothing behind it, and the three amounts on the next
    lines. *)
Definition lookahead_lines : list str :=
  [lit "Tuesday 04.02.2025"; lit "18:30 Spin Class"; lit "Studio A 10/8/2";
   lit "5,00 €"; lit "10,00 €"; lit "40,00 €"].

(** A line of plain text under a record that has its event. *)
Definition studio_lines : list str :=
  [lit "Tuesday 04.02.2025"; lit "18:30 Spin Class"; lit "Studio A"].

(** A time stamp alone on its line, and the event on the next line. *)
Definition event_lines : list str :=
  [lit "Tuesday 04.02.2025"; lit "18:30"; lit "Spin Class"].

Local Close Scope N_scope.

Arguments decimal : simpl never.
Arguments isdigit : simpl never.
Arguments isspace : simpl never.
Arguments strip : simpl never.
Arguments lit : simpl never.
Arguments re_date : simpl never.
Arguments re_time : simpl never.
Arguments search_capacity : simpl never.
Arguments search_triple : simpl never.
Arguments re_ban : simpl never.
Arguments getitem : simpl never.
Arguments endswith : simpl never.
Arguments startswith : simpl never.
Arguments euro_value : simpl never.
Arguments findall_amounts : simpl never.
Arguments split_ws : simpl never.
Arguments split_ws_1 : simpl never.
Arguments split_char : simpl never.
Arguments py_int : simpl never.
Arguments is_day_header : simpl never.
Arguments header_date : simpl never.
Arguments new_record : simpl never.
Arguments dedup : simpl never.
Arguments capacity_split : simpl never.
Arguments take_value : simpl never.
Arguments find_total : simpl never.
Arguments triple_branch : simpl never.
Arguments record_line : simpl never.
Arguments open_record : simpl never.
Arguments update_record : simpl never.

(** ** What the renderers print of a record, and the time stamps *)

(** The characters of a decimal number. *)
Fixpoint uint_digits (u : Decimal.uint) : str :=
  match u with
  | Decimal.Nil => []
  | Decimal.D0 u' => 48%N :: uint_digits u'
  | Decimal.D1 u' => 49%N :: uint_digits u'
  | Decimal.D2 u' => 50%N :: uint_digits u'
  | Decimal.D3 u' => 51%N :: uint_digits u'
  | Decimal.D4 u' => 52%N :: uint_digits u'
  | Decimal.D5 u' => 53%N :: uint_digits u'
  | Decimal.D6 u' => 54%N :: uint_digits u'
  | Decimal.D7 u' => 55%N :: uint_digits u'
  | Decimal.D8 u' => 56%N :: uint_digits u'
  | Decimal.D9 u' => 57%N :: uint_digits u'
  end.

(** [str(z)] for an integer [z], as the f-strings and [str] of lines 257,
    473, 475 and 537 print it. *)
Definition py_str_int (z : Z) : str :=
  match Z.to_int z with
  | Decimal.Pos u => uint_digits u
  | Decimal.Neg u => 45%N :: uint_digits u
  end.

(** Lines 257, 473 and 537: the attendance cell of a record,
    [f"{rec['A']}/{rec['B']}"] when both are set, else the empty string. *)
Definition attendance (r : Rec.t) : str :=
  match Rec.A r, Rec.B r with
  | Some a, Some b => py_str_int a ++ [47%N] ++ py_str_int b
  | _, _ => []
  end.

(** Line 475: [str(rec["N"])], the no-shows cell of the document. *)
Definition no_shows_text (r : Rec.t) : str :=
  match Rec.N r with
  | Some n => py_str_int n
  | None => lit "None"
  end.

(** The time stamps of the lines, in their order: of each line that begins
    with a time stamp once stripped, the text before its first space. *)
Definition time_stamps (lines : list str) : list str :=
  omap (λ l, if re_time (strip l)
             then head (split_char_1 32%N (strip l)) else None) lines.

(** A word: characters that are not blank, one at least. *)
Definition is_word (w : str) : Prop :=
  w ≠ [] ∧ Forall (λ c, isspace c = false) w.

(** ** The limit of [int] on the number of digits

    [int] of CPython 3.11 refuses a string of more than
    [sys.int_max_str_digits] digits with a [ValueError], whatever the digits
    are; the limit is 4300 unless the interpreter is told otherwise, and 0
    turns it off.  The scan calls [int] on lines 176-178 only, and catches
    nothing.  The definitions below are lines 85-206 under the limit [m]:
    they are [triple_branch], [record_line], [update_record], [body],
    [rounds], [iter], [scan] and [parse_payroll_pdf] with [py_int_lim m] for
    [py_int], and nothing else changed. *)

Definition int_max_str_digits : nat := 4300.

(** [int(s)] under the limit [m]. *)
Definition py_int_lim (m : nat) (s : str) : outcome Z :=
  if bool_decide (0 < m ∧ m < length s) then Raise ValueError else py_int s.

Definition triple_branch_lim (m : nat) (lines : list str) (line : str)
    (idx : nat) (i : nat) (r : Rec.t) : outcome (Rec.t * nat * bool) :=
  let studio_text := strip (take idx line) in
  let ba_text := strip (drop idx line) in
  let r := if truthy studio_text
           then Rec.set_studio (strip (Rec.studio r ++ space ++ studio_text)) r
           else r in
  match re_ban ba_text with
  | Some g =>
      b ← py_int_lim m g.1.1.1;
      a ← py_int_lim m g.1.1.2;
      n ← py_int_lim m g.1.2;
      let r := Rec.set_BAN b a n r in
      let rest := strip g.2 in
      '(r, i') ← find_total lines rest i r;
      Ok (r, i', true)
  | None => Ok (r, i, false)
  end.

Definition record_line_lim (m : nat) (lines : list str) (line : str) (i : nat)
    (r : Rec.t) : outcome (Rec.t * nat * bool) :=
  if startswith line [40%N] then
    Ok (Rec.set_event (Rec.event r ++ space ++ line) r, i, false)
  else if bool_decide (Rec.event r = []) && bool_decide (Rec.studio r = [])
          && negb (search_capacity line)
          && negb (bool_decide (is_Some (search_triple line))) then
    Ok (Rec.set_event line r, i, false)
  else
    split ← (if bool_decide (Rec.event r = []) && search_capacity line
             then capacity_split line r else Ok None);
    match split with
    | Some r' => Ok (r', i, false)
    | None =>
        match search_triple line with
        | Some idx => triple_branch_lim m lines line idx i r
        | None =>
            Ok (Rec.set_studio
                  (if truthy (Rec.studio r)
                   then strip (Rec.studio r ++ space ++ line) else line) r,
                i, false)
        end
    end.

Definition update_record_lim (m : nat) (lines : list str) (line : str)
    (l : loc) (st : state) : outcome state :=
  r ← deref (heap st) l;
  '(r', i', commit) ← record_line_lim m lines line (i st) r;
  let h := <[l := r']> (heap st) in
  if commit : bool
  then Ok (mkState i' (current_date st) None (records st ++ [l]) h)
  else Ok (mkState i' (current_date st) (current_record st) (records st) h).

Definition body_lim (m : nat) (lines : list str) (st : state) : outcome state :=
  raw ← getitem lines (Z.of_nat (i st));
  let line := strip raw in
  let st := set_i (S (i st)) st in
  if negb (truthy line) || bool_decide (line ∈ skip_lines) then Ok st
  else
    let parts := split_ws_1 line in
    hd ← is_day_header parts;
    if hd : bool then
      '(date_str, i') ← header_date lines parts (i st);
      Ok (new_section (Some date_str) (set_i i' st))
    else if startswith line (lit "Totals:") then Ok (new_section None st)
    else if date_active (current_date st) then
      if re_time line then open_record (default [] (current_date st)) line st
      else match current_record st with
           | Some l => update_record_lim m lines line l st
           | None => Ok st
           end
    else Ok st.

Fixpoint rounds_lim (m : nat) (k : nat) (lines : list str) (st : state)
  : outcome state :=
  match k with
  | O => Ok st
  | S k' =>
      if bool_decide (i st < length lines)%nat
      then st' ← body_lim m lines st; rounds_lim m k' lines st'
      else Ok st
  end.

Definition iter_lim (m : nat) (fuel : nat) (lines : list str) (st : state)
  : outcome state :=
  st' ← rounds_lim m fuel lines st;
  if bool_decide (i st' < length lines)%nat then OutOfFuel else Ok st'.

Definition scan_lim (m : nat) (h : store) (lines : list str)
  : outcome (list loc * store) :=
  st ← iter_lim m (length lines) lines (init h);
  Ok (records st, heap st).

Definition parse_payroll_pdf_lim (m : nat) (lines : list str)
  : outcome (list Rec.t) :=
  res ← scan_lim m [] lines;
  deref_all res.2 res.1.

(** A triple whose third number has 4301 digits. *)
Definition long_number_lines : list str :=
  [lit "Tuesday 04.02.2025"; lit "18:30 X";
   lit "1/1/" ++ replicate 4301 49%N].

(** A triple with one amount behind it on its line. *)
Definition one_amount_lines : list str :=
  [lit "Tuesday 04.02.2025"; lit "18:30 Spin Class";
   lit "Studio A 10/8/2 5,00 €"].

Arguments py_int_lim : simpl never.
Arguments triple_branch_lim : simpl never.
Arguments record_line_lim : simpl never.
Arguments update_record_lim : simpl never.

(** ** The model on small inputs *)

Example lit_euro : lit "a €" = [97; 32; 8364]%N.
Proof. vm_compute. reflexivity. Qed.
Example strip_blanks : strip (lit "  a b  ") = lit "a b".
Proof. vm_compute. reflexivity. Qed.
Example split_first_word :
  split_ws_1 (lit "a  b c ") = [lit "a"; lit "b c "]
  ∧ split_ws_1 (lit "a ") = [lit "a"].
Proof. split; vm_compute; reflexivity. Qed.
Example split_words : split_ws (lit " a  b c ") = [lit "a"; lit "b"; lit "c"].
Proof. vm_compute. reflexivity. Qed.
Example split_on_euro :
  split_char euro (lit "1 € 2 €") = [lit "1 "; lit " 2 "; []].
Proof. vm_compute. reflexivity. Qed.
Example rfind_paren : rfind (lit "a(b(c") 40%N = Some 3.
Proof. vm_compute. reflexivity. Qed.
Example re_date_cases :
  re_date (lit "04.02.2025") = true ∧ re_date (lit "4.02.2025") = true
  ∧ re_date (lit "04.02.20255") = false ∧ re_date (lit "foo") = false.
Proof. split_and!; vm_compute; reflexivity. Qed.
Example re_time_cases :
  re_time (lit "18:30 Spin") = true ∧ re_time (lit "8:3") = false.
Proof. split; vm_compute; reflexivity. Qed.
Example search_capacity_cases :
  search_capacity (lit "Pilates Studio B (12)") = true
  ∧ search_capacity (lit "Studio (12) x") = false.
Proof. split; vm_compute; reflexivity. Qed.
Example search_triple_start :
  search_triple (lit "Studio A 10/8/2 5,00 €") = Some 9.
Proof. vm_compute. reflexivity. Qed.
Example re_ban_groups :
  re_ban (lit "10 / 8/2  5,00 €")
  = Some (lit "10", lit "8", lit "2", lit "5,00 €").
Proof. vm_compute. reflexivity. Qed.
Example findall_three_amounts :
  findall_amounts (lit "5,00 € 10,00 € 40,00 €")
  = [lit "5,00"; lit "10,00"; lit "40,00"].
Proof. vm_compute. reflexivity. Qed.
Example py_int_scripts :
  py_int (lit "042") = Ok 42%Z ∧ py_int (lit "١٢") = Ok 12%Z
  ∧ py_int (lit "4a") = Raise ValueError ∧ py_int [] = Raise ValueError.
Proof. split_and!; vm_compute; reflexivity. Qed.

(** The header and its date on two lines; only one amount carries a
    figure, so none of the three ways to a total applies. *)
Example split_header_scenario :
  parse_payroll_pdf
    [lit "Wednesday"; lit "05.02.2025"; lit "19:00 Yoga"; lit "(Beginners)";
     lit "10/9/1 € € 25,50 €"]
  = Ok [Rec.mk (lit "05.02.2025") (lit "19:00") (lit "Yoga (Beginners)") []
               (Some 10%Z) (Some 9%Z) (Some 1%Z) None].
Proof. vm_compute. reflexivity. Qed.

(** ** Indexing, and the outcome monad *)

Section Indexing.
Context {X : Type}.
Implicit Types (l : list X) (n k : nat).

Lemma getitem_lookup l n x : l !! n = Some x → getitem l (Z.of_nat n) = Ok x.
Proof.
  intros Hx. pose proof (lookup_lt_Some _ _ _ Hx) as Hlt.
  unfold getitem.
  destruct (Z.ltb_spec (Z.of_nat n) 0) as [?|_]; [lia|].
  destruct (Z.ltb_spec (Z.of_nat n) 0) as [?|_]; [lia|].
  destruct (Z.leb_spec (Z.of_nat (length l)) (Z.of_nat n)) as [?|_]; [lia|].
  cbn. by rewrite Nat2Z.id, Hx.
Qed.

Lemma getitem_lt l n : n < length l → ∃ x, l !! n = Some x ∧ getitem l (Z.of_nat n) = Ok x.
Proof.
  intros Hlt. destruct (lookup_lt_is_Some_2 l n Hlt) as [x Hx].
  exists x. split; [done | by apply getitem_lookup].
Qed.

Lemma getitem_neg l k : 1 ≤ k ≤ length l → ∃ x, getitem l (- Z.of_nat k) = Ok x.
Proof.
  intros Hk. unfold getitem.
  destruct (Z.ltb_spec (- Z.of_nat k) 0) as [_|?]; [|lia].
  destruct (Z.ltb_spec (Z.of_nat (length l) + - Z.of_nat k) 0) as [?|_]; [lia|].
  destruct (Z.leb_spec (Z.of_nat (length l))
                       (Z.of_nat (length l) + - Z.of_nat k)) as [?|_]; [lia|].
  cbn.
  destruct (lookup_lt_is_Some_2 l (Z.to_nat (Z.of_nat (length l) + - Z.of_nat k)))
    as [x ->]; [lia | by exists x].
Qed.
End Indexing.


Lemma bind_Ok_l {X Y} (x : X) (f : X → outcome Y) : Ok x ≫= f = f x.
Proof. done. Qed.


(** ** Characters and strings *)

Lemma isspace_cases (c : char) :
  isspace c = true →
  c ∈ [9; 10; 11; 12; 13; 28; 29; 30; 31; 32; 133; 160; 5760; 8192; 8193; 8194;
       8195; 8196; 8197; 8198; 8199; 8200; 8201; 8202; 8232; 8233; 8239; 8287;
       12288]%N.
Proof.
  unfold isspace. rewrite !orb_true_iff, !andb_true_iff, !N.leb_le, !N.eqb_eq.
  intros H. rewrite !elem_of_cons, elem_of_nil. lia.
Qed.

Lemma digit_not_space (c : char) : isdigit c = true → isspace c = false.
Proof.
  intros Hd. destruct (isspace c) eqn:Hs; [|done].
  apply isspace_cases in Hs.
  repeat (apply elem_of_cons in Hs as [->|Hs]; [by vm_compute in Hd|]).
  by apply elem_of_nil in Hs.
Qed.



Lemma takewhile_Forall p (s : str) : Forall (λ c, p c = true) (takewhile p s).
Proof.
  induction s as [|c s IH]; cbn; [constructor|].
  destruct (p c) eqn:Hc; by constructor.
Qed.

Lemma dropwhile_head p (s : str) c s' : dropwhile p s = c :: s' → p c = false.
Proof.
  induction s as [|d s IH]; cbn; [done|].
  destruct (p d) eqn:Hd; [done|]. intros; by simplify_eq.
Qed.


Lemma dropwhile_id p (c : char) (s : str) : p c = false → dropwhile p (c :: s) = c :: s.
Proof. intros Hc. cbn. by rewrite Hc. Qed.

Lemma rstrip_id (s : str) c : last s = Some c → isspace c = false → rstrip s = s.
Proof.
  intros Hl Hc. unfold rstrip.
  destruct (reverse s) as [|d t] eqn:Hr.
  - apply (f_equal reverse) in Hr. rewrite reverse_involutive in Hr. by subst.
  - assert (d = c) as ->.
    { rewrite <- (reverse_involutive s), Hr, reverse_cons, last_snoc in Hl.
      by simplify_eq. }
    rewrite dropwhile_id by done. by rewrite <- Hr, reverse_involutive.
Qed.

Lemma rstrip_last (s : str) c : last (rstrip s) = Some c → isspace c = false.
Proof.
  unfold rstrip. intros Hl.
  destruct (dropwhile isspace (reverse s)) as [|d t] eqn:Hd; [done|].
  rewrite reverse_cons, last_snoc in Hl. simplify_eq.
  by eapply dropwhile_head.
Qed.

Lemma strip_last (s : str) c : last (strip s) = Some c → isspace c = false.
Proof. apply rstrip_last. Qed.

(** A string that begins and ends with characters that are not blank is
    its own [strip]. *)
Lemma strip_id (s : str) c d :
  head s = Some c → isspace c = false →
  last s = Some d → isspace d = false → strip s = s.
Proof.
  intros Hh Hc Hl Hd. unfold strip, lstrip.
  destruct s as [|c' s]; [done|]. cbn in Hh. simplify_eq.
  rewrite dropwhile_id by done. by eapply rstrip_id.
Qed.


(** ** Digits and [int] *)

Lemma mapM_decimal (ds : str) :
  Forall (λ c, isdigit c = true) ds → is_Some (mapM decimal ds).
Proof.
  induction 1 as [|c ds Hc _ IH]; [by eexists|].
  destruct IH as [vs Hvs]. unfold isdigit in Hc.
  destruct (decimal c) as [v|] eqn:Hv; [|done].
  exists (v :: vs). cbn. by rewrite Hv, Hvs.
Qed.

Lemma digits1_int (s ds rest : str) :
  digits1 s = Some (ds, rest) → ∃ z, py_int ds = Ok z.
Proof.
  unfold digits1. intros H.
  pose proof (takewhile_Forall isdigit s) as Hall.
  destruct (takewhile isdigit s) as [|c t] eqn:Ht; [done|]. simplify_eq.
  destruct (mapM_decimal _ Hall) as [vs Hvs].
  unfold py_int. rewrite Hvs. by eexists.
Qed.


(** ** The triple patterns *)

Lemma triple_at_int (s : str) g1 g2 g3 rest :
  triple_at s = Some (g1, g2, g3, rest) →
  ∃ b a n, py_int g1 = Ok b ∧ py_int g2 = Ok a ∧ py_int g3 = Ok n.
Proof.
  unfold triple_at. intros H.
  destruct (digits1 s) as [[d1 r1]|] eqn:H1; [|done]. simpl in H.
  destruct (expect _ (lstrip r1)) as [s1|]; [|done]. simpl in H.
  destruct (digits1 (lstrip s1)) as [[d2 r2]|] eqn:H2; [|done]. simpl in H.
  destruct (expect _ (lstrip r2)) as [s2|]; [|done]. simpl in H.
  destruct (digits1 (lstrip s2)) as [[d3 r3]|] eqn:H3; [|done]. simpl in H.
  simplify_eq.
  destruct (digits1_int _ _ _ H1) as [b Hb].
  destruct (digits1_int _ _ _ H2) as [a Ha].
  destruct (digits1_int _ _ _ H3) as [n Hn].
  by exists b, a, n.
Qed.




(** ** The blocks of the loop body raise nothing *)

Lemma getitem_0 {X} (l : list X) x : l !! 0 = Some x → getitem l 0 = Ok x.
Proof. apply (getitem_lookup l 0). Qed.
Lemma getitem_1 {X} (l : list X) x : l !! 1 = Some x → getitem l 1 = Ok x.
Proof. apply (getitem_lookup l 1). Qed.

Lemma getitem_head {X} (x : X) l : getitem (x :: l) 0 = Ok x.
Proof. by apply getitem_0. Qed.

Lemma is_day_header_ok parts : ∃ b, is_day_header parts = Ok b.
Proof.
  destruct parts as [|p ps]; [by eexists|]. unfold is_day_header.
  rewrite (getitem_0 (p :: ps) p) by done. by eexists.
Qed.

Lemma header_date_ok lines parts j :
  j ≤ length lines →
  ∃ d j', header_date lines parts j = Ok (d, j') ∧ j ≤ j' ≤ length lines.
Proof.
  intros Hj. unfold header_date.
  assert (∃ d, (if bool_decide (1 < length parts)
                then getitem parts 1 else Ok []) = Ok d) as [d ->].
  { case_bool_decide as Hp; [|by eexists].
    destruct (getitem_lt parts 1 Hp) as (x & _ & Hx). by exists x. }
  cbn. destruct (negb (truthy d) || negb (re_date d)); [|by eexists _, _].
  case_bool_decide as Hlt; [|by eexists _, _].
  destruct (getitem_lt lines j Hlt) as (x & _ & ->). cbn.
  destruct (re_date (strip x)); cbn; eexists _, _; (split; [done | lia]).
Qed.

Lemma split_char_1_from_cases sep acc (s : str) :
  (∃ a, split_char_1_from sep acc s = [a])
  ∨ (∃ a b, split_char_1_from sep acc s = [a; b]).
Proof.
  revert acc. induction s as [|c s IH]; intros acc; cbn; [by left; eexists|].
  destruct (c =? sep)%N; [by right; eexists _, _ | apply IH].
Qed.

Lemma new_record_ok d line :
  ∃ r, new_record d line = Ok r ∧ triple_unset r ∧ Rec.date r = d.
Proof.
  unfold new_record, split_char_1.
  destruct (split_char_1_from_cases 32%N [] line) as [[a ->]|(a & b & ->)].
  - rewrite (getitem_0 [a] a) by done. cbn. by eexists.
  - rewrite (getitem_0 [a; b] a) by done. cbn.
    rewrite (getitem_1 [a; b] b) by done. cbn. by eexists.
Qed.

Lemma dedup_ok words : ∃ d ws, dedup words = Ok (d, ws).
Proof.
  unfold dedup. case_bool_decide as Hw; [|by eexists _, _].
  destruct (getitem_neg words 1 ltac:(lia)) as [w1 H1].
  destruct (getitem_neg words 2 ltac:(lia)) as [w2 H2].
  destruct (getitem_lt words 0 ltac:(lia)) as (w0 & _ & H0).
  change (getitem words (-1) = Ok w1) in H1.
  change (getitem words (-2) = Ok w2) in H2.
  change (getitem words 0 = Ok w0) in H0.
  rewrite H1, H2. cbn.
  case_bool_decide; cbn; [by eexists _, _|].
  rewrite H0. cbn. case_bool_decide; cbn; by eexists _, _.
Qed.

Lemma capacity_split_ok line r :
  ∃ o, capacity_split line r = Ok o ∧ ∀ r', o = Some r' → same_numbers r r'.
Proof.
  unfold capacity_split.
  destruct (rfind line 40%N) as [k|]; [|by exists None].
  destruct (re_capacity (drop k line)); [|by exists None].
  destruct (dedup_ok (split_ws (strip (take k line)))) as (d & ws & ->). cbn.
  eexists. split; [done|]. intros r' ?; by simplify_eq.
Qed.

Lemma take_value_cases lines vs j :
  take_value lines (vs, j) =
  Ok (match drop j lines with
      | l :: _ => if endswith (strip l) [euro]
                  then (vs ++ [euro_value l], S j) else (vs, j)
      | [] => (vs, j)
      end).
Proof.
  unfold take_value. cbn [fst snd].
  case_bool_decide as Hlt.
  - destruct (getitem_lt lines j Hlt) as (l & Hl & ->). cbn.
    rewrite (drop_S _ _ _ Hl).
    by destruct (endswith (strip l) [euro]).
  - by rewrite drop_ge by lia.
Qed.

Lemma euro_run_nil n : euro_run n [] = 0.
Proof. by destruct n. Qed.

Lemma euro_run_stop n l ls :
  endswith (strip l) [euro] = false → euro_run n (l :: ls) = 0.
Proof. intros H. destruct n; [done|]. cbn. by rewrite H. Qed.

Lemma euro_run_le n ls : euro_run n ls ≤ n ∧ euro_run n ls ≤ length ls.
Proof.
  revert ls. induction n as [|n IH]; intros [|l ls]; cbn; try lia.
  destruct (endswith _ _); [|lia]. destruct (IH ls). lia.
Qed.

(** The loop of lines 183-187 has no [break]; still it takes the lines that
    end with the sign only as long as they follow one another, since a line
    that fails the test is tested again in the rounds that remain. *)
Lemma for_range_take_value lines n vs j :
  for_range n (take_value lines) (vs, j) =
  Ok (vs ++ (euro_value <$> take (euro_run n (drop j lines)) (drop j lines)),
      j + euro_run n (drop j lines)).
Proof.
  revert vs j. induction n as [|n IH]; intros vs j.
  - cbn. by rewrite app_nil_r, Nat.add_0_r.
  - cbn [for_range]. rewrite take_value_cases.
    destruct (drop j lines) as [|l ls] eqn:Hd.
    + cbn. rewrite IH, Hd, euro_run_nil. cbn.
      by rewrite app_nil_r, Nat.add_0_r.
    + assert (drop (S j) lines = ls) as Hd'.
      { by rewrite <- (Nat.add_1_r j), <- drop_drop, Hd. }
      cbn [euro_run].
      destruct (endswith (strip l) [euro]) eqn:He; cbn.
      * rewrite IH, Hd'. cbn. rewrite <- app_assoc. cbn.
        do 2 f_equal. lia.
      * rewrite IH, Hd, (euro_run_stop _ _ _ He). cbn.
        by rewrite app_nil_r, Nat.add_0_r.
Qed.

Lemma find_total_ok lines rest j r :
  j ≤ length lines →
  ∃ r' j', find_total lines rest j r = Ok (r', j') ∧ j ≤ j' ≤ length lines
    ∧ Rec.B r' = Rec.B r ∧ Rec.A r' = Rec.A r ∧ Rec.N r' = Rec.N r
    ∧ Rec.date r' = Rec.date r.
Proof.
  intros Hj. unfold find_total. case_bool_decide as Hrest.
  - rewrite for_range_take_value.
    pose proof (euro_run_le 3 (drop j lines)) as [_ Hle].
    rewrite length_drop in Hle.
    remember (euro_run 3 (drop j lines)) as k eqn:Hk.
    remember ([] ++ (euro_value <$> take k (drop j lines))) as vs eqn:Hvs.
    cbn. case_bool_decide as Hlen.
    + assert (2 < length vs) as Hlt by (clear -Hlen; lia).
      destruct (getitem_lt vs 2 Hlt) as (v & _ & Hv).
      change (getitem vs 2 = Ok v) in Hv. rewrite Hv. cbn.
      eexists _, _; split; [done|]. cbn. repeat split; try done; lia.
    + eexists _, _; split; [done|]. cbn. repeat split; try done; lia.
  - case_bool_decide as H3.
    + destruct (getitem_lt (findall_amounts rest) 2 ltac:(lia)) as (v & _ & Hv).
      change (getitem (findall_amounts rest) 2 = Ok v) in Hv. rewrite Hv. cbn.
      eexists _, _; split; [done|]. cbn. repeat split; try done; lia.
    + case_bool_decide as H3'; [|eexists _, _; repeat split; try done; lia].
      match goal with |- context [getitem ?vs 2] =>
        assert (2 < length vs) as Hlt by lia;
        destruct (getitem_lt vs 2 Hlt) as (v & _ & Hv);
        change (getitem vs 2 = Ok v) in Hv
      end.
      rewrite Hv. cbn. eexists _, _; split; [done|]. cbn. repeat split; try done; lia.
Qed.

Lemma re_ban_int (s : str) g1 g2 g3 g4 :
  re_ban s = Some (g1, g2, g3, g4) →
  ∃ b a n, py_int g1 = Ok b ∧ py_int g2 = Ok a ∧ py_int g3 = Ok n.
Proof.
  unfold re_ban. destruct (triple_at s) as [[[[h1 h2] h3] rest]|] eqn:Hg; [|done].
  cbn. intros; simplify_eq. by eapply triple_at_int.
Qed.

Lemma triple_branch_ok lines line idx j r :
  j ≤ length lines →
  ∃ r' j' c, triple_branch lines line idx j r = Ok (r', j', c)
    ∧ j ≤ j' ≤ length lines
    ∧ (if c : bool then triple_set r' else same_numbers r r').
Proof.
  intros Hj. unfold triple_branch.
  set (r1 := if truthy _ then _ else r).
  assert (same_numbers r r1) as Hr1.
  { unfold r1. by destruct (truthy _). }
  clearbody r1.
  destruct (re_ban _) as [[[[g1 g2] g3] g4]|] eqn:Hm.
  - destruct (re_ban_int _ _ _ _ _ Hm) as (b & a & n & Hb & Ha & Hn).
    cbn [fst snd]. rewrite Hb. cbn. rewrite Ha. cbn. rewrite Hn. cbn.
    destruct (find_total_ok lines (strip g4) j (Rec.set_BAN b a n r1) Hj)
      as (r' & j' & -> & Hj' & HB & HA & HN & _).
    cbn. eexists _, _, _. split; [done|]. split; [done|].
    unfold triple_set. by rewrite HB, HA, HN.
  - eexists _, _, _. split; [done|]. split; [lia | done].
Qed.

Lemma record_line_ok lines line j r :
  j ≤ length lines →
  ∃ r' j' c, record_line lines line j r = Ok (r', j', c)
    ∧ j ≤ j' ≤ length lines
    ∧ (if c : bool then triple_set r' else same_numbers r r').
Proof.
  intros Hj. unfold record_line.
  destruct (startswith line _).
  { eexists _, _, _. split; [done|]. split; [lia | done]. }
  destruct (_ && _ && _ && _).
  { eexists _, _, _. split; [done|]. split; [lia | done]. }
  assert (∃ o, (if bool_decide (Rec.event r = []) && search_capacity line
                then capacity_split line r else Ok None) = Ok o
               ∧ ∀ r', o = Some r' → same_numbers r r') as (o & -> & Ho).
  { destruct (_ && _); [apply capacity_split_ok | by exists None]. }
  cbn. destruct o as [r'|].
  { eexists _, _, _. split; [done|]. split; [lia | by apply Ho]. }
  destruct (search_triple line) as [idx|]; [by apply triple_branch_ok|].
  eexists _, _, _. split; [done|]. split; [lia | done].
Qed.

(** ** One round on values *)

Lemma vopen_ok d line v :
  view_ok v →
  ∃ r', new_record d line = Ok r' ∧ triple_unset r'
    ∧ vopen d line v
      = Ok (mkView (v_i v) (v_date v) (Some r')
                   (v_out v ++ match v_cur v with Some r => [r] | None => [] end)).
Proof.
  intros Hv. unfold vopen.
  destruct (new_record_ok d line) as (r' & Hr' & Hun & _).
  exists r'. rewrite Hr'. cbn. split; [done|]. split; [done|].
  destruct (v_cur v) as [r|] eqn:Hc; [|by rewrite app_nil_r].
  destruct (ok_cur v Hv r Hc) as [-> _]. by rewrite bool_decide_eq_true_2.
Qed.

(** A round on values ends well, moves the cursor forward and within the
    lines, only appends to the output, and keeps [view_ok]. *)
Lemma vbody_ok lines v :
  view_ok v → v_i v < length lines →
  ∃ v', vbody lines v = Ok v'
    ∧ v_i v < v_i v' ≤ length lines
    ∧ v_out v `prefix_of` v_out v'
    ∧ view_ok v'.
Proof.
  intros Hv Hlt. unfold vbody.
  destruct (getitem_lt lines (v_i v) Hlt) as (raw & _ & ->). cbn.
  destruct (negb _ || _).
  { eexists. split; [done|]. cbn. split; [lia|]. split; [done|].
    by destruct Hv. }
  destruct (is_day_header_ok (split_ws_1 (strip raw))) as [hd ->]. cbn.
  destruct hd.
  { destruct (header_date_ok lines (split_ws_1 (strip raw)) (S (v_i v)) Hlt)
      as (d & j' & -> & Hj'). cbn.
    eexists. split; [done|]. cbn. split; [lia|]. split; [done|].
    destruct Hv. by split. }
  destruct (startswith _ _).
  { eexists. split; [done|]. cbn. split; [lia|]. split; [done|].
    destruct Hv. by split. }
  destruct (date_active (v_date v)) eqn:Hd.
  2:{ eexists. split; [done|]. cbn. split; [lia|]. split; [done|].
      by destruct Hv. }
  destruct (re_time _).
  { set (v1 := mkView _ _ _ _).
    assert (view_ok v1) as Hv1 by by destruct Hv.
    destruct (vopen_ok (default [] (v_date v)) (strip raw) v1 Hv1)
      as (r' & _ & Hun & ->).
    eexists. split; [done|]. cbn. split; [lia|].
    split; [by apply prefix_app_r|].
    destruct Hv as [Hc Hda Ho]. split; cbn.
    - intros ? ?; by simplify_eq.
    - by rewrite Hd.
    - apply Forall_app. split; [done|].
      destruct (v_cur v) as [r|] eqn:Hr; [|constructor].
      constructor; [right; by apply Hc | constructor]. }
  destruct (v_cur v) as [r|] eqn:Hr.
  2:{ eexists. split; [done|]. cbn. split; [lia|]. split; [done|].
      destruct Hv. split; cbn; done. }
  unfold vupdate. cbn.
  destruct (record_line_ok lines (strip raw) (S (v_i v)) r Hlt)
    as (r' & j' & c & -> & Hj' & Hc'). cbn.
  destruct Hv as [Hc Hda Ho]. pose proof (Hc r Hr) as Hun.
  destruct c; eexists; (split; [done|]); cbn; (split; [lia|]).
  - split; [by apply prefix_app_r|]. split; cbn; [done | done |].
    apply Forall_app. split; [done|]. constructor; [by left | constructor].
  - split; [done|]. split; cbn; [| by rewrite Hd | done].
    intros ? ?; simplify_eq.
    destruct Hun as (? & ? & ? & ?), Hc' as (? & ? & ? & ?).
    unfold triple_unset. by repeat split; congruence.
Qed.

(** ** One round in the store *)

Lemma omap_ext_Forall {X Y} (f g : X → option Y) (l : list X) :
  Forall (λ x, f x = g x) l → omap f l = omap g l.
Proof.
  induction 1 as [|x l Hx _ IH]; [done|].
  csimpl. rewrite Hx, IH. by destruct (g x).
Qed.

Lemma omap_lookup_app (h : store) r (ls : list loc) :
  Forall (λ l, l < length h) ls →
  omap (λ l, (h ++ [r]) !! l) ls = omap (λ l, h !! l) ls.
Proof.
  intros Hall. apply omap_ext_Forall. eapply Forall_impl; [done|].
  intros l Hl. by apply lookup_app_l.
Qed.

Lemma omap_lookup_insert (h : store) l r (ls : list loc) :
  l ∉ ls → omap (λ l', <[l:=r]> h !! l') ls = omap (λ l', h !! l') ls.
Proof.
  intros Hni. apply omap_ext_Forall, Forall_forall.
  intros l' Hin. apply list_lookup_insert_ne. by intros ->.
Qed.

Lemma omap_lookup_old (h0 h : store) (ls : list loc) :
  take (length h0) h = h0 → Forall (λ l, l < length h0) ls →
  omap (λ l, h !! l) ls = omap (λ l, h0 !! l) ls.
Proof.
  intros Hb Hall. apply omap_ext_Forall. eapply Forall_impl; [done|].
  intros l Hl. cbn beta.
  transitivity (take (length h0) h !! l); [by rewrite lookup_take_lt | by rewrite Hb].
Qed.

Lemma deref_all_ok (h : store) (ls : list loc) :
  Forall (λ l, l < length h) ls →
  deref_all h ls = Ok (omap (λ l, h !! l) ls).
Proof.
  intros Hall. unfold deref_all.
  assert (mapM (λ l, h !! l) ls = Some (omap (λ l, h !! l) ls)) as ->; [|done].
  apply mapM_Some_2.
  induction Hall as [|l ls Hl _ IH]; [constructor|].
  destruct (lookup_lt_is_Some_2 h l Hl) as [r Hr].
  csimpl. rewrite Hr. by constructor.
Qed.

Lemma store_ok_base_le h0 st : store_ok h0 st → length h0 ≤ length (heap st).
Proof.
  intros [Hb _ _]. apply (f_equal length) in Hb.
  rewrite length_take in Hb. lia.
Qed.

Lemma store_ok_records h0 st :
  store_ok h0 st → Forall (λ l, l < length (heap st)) (records st).
Proof. intros [_ Hr _]. eapply Forall_impl; [done|]. cbn; lia. Qed.

Lemma store_ok_quiet h0 st st' :
  store_ok h0 st → heap st' = heap st → records st' = records st →
  (current_record st' = current_record st ∨ current_record st' = None) →
  store_ok h0 st'.
Proof.
  intros [Hb Hr Hc] Hh Hrs Hor. split; rewrite ?Hh, ?Hrs; [done | done |].
  intros l Hl. destruct Hor as [Heq|Heq]; rewrite Heq in Hl; [|done].
  by apply Hc.
Qed.

(** A round in the store goes through the values of the round on values,
    and keeps the store in order. *)
Lemma body_refines lines h0 st :
  store_ok h0 st → view_ok (view_of st) → i st < length lines →
  ∃ st', body lines st = Ok st' ∧ store_ok h0 st'
         ∧ vbody lines (view_of st) = Ok (view_of st').
Proof.
  intros Hs Hv Hlt. unfold body, vbody.
  change (v_i (view_of st)) with (i st).
  destruct (getitem_lt lines (i st) Hlt) as (raw & _ & ->). cbn.
  destruct (negb _ || _).
  { eexists. split; [done|]. split; [|done]. eapply store_ok_quiet; cbn; eauto. }
  destruct (is_day_header_ok (split_ws_1 (strip raw))) as [hd ->]. cbn.
  destruct hd.
  { destruct (header_date_ok lines (split_ws_1 (strip raw)) (S (i st)) Hlt)
      as (d & j' & -> & Hj'). cbn.
    eexists. split; [done|]. split; [|done]. eapply store_ok_quiet; cbn; eauto. }
  destruct (startswith _ _).
  { eexists. split; [done|]. split; [|done]. eapply store_ok_quiet; cbn; eauto. }
  destruct (date_active (current_date st)) eqn:Hd.
  2:{ eexists. split; [done|]. split; [|done]. eapply store_ok_quiet; cbn; eauto. }
  pose proof (store_ok_base_le _ _ Hs) as Hble.
  pose proof (store_ok_records _ _ Hs) as Hrs.
  destruct Hs as [Hb Hr Hc].
  destruct (re_time _).
  { unfold open_record, vopen. cbn.
    destruct (new_record_ok (default [] (current_date st)) (strip raw))
      as (r' & Hr' & _ & _).
    destruct (current_record st) as [l|] eqn:Hcur; cbn.
    - destruct (Hc l eq_refl) as [Hl Hni].
      destruct (lookup_lt_is_Some_2 (heap st) l) as [r Hlr]; [lia|].
      unfold deref. rewrite Hlr. cbn. rewrite Hr'. cbn.
      destruct (ok_cur _ Hv r) as [HB _].
      { unfold view_of. cbn. by rewrite Hcur. }
      rewrite HB, bool_decide_eq_true_2 by done.
      eexists. split; [done|]. split.
      + split; cbn.
        * by rewrite take_app_le.
        * apply Forall_app. split.
          -- eapply Forall_impl; [exact Hr|]. cbn. intros ? ?. rewrite length_app. lia.
          -- constructor; [|constructor]. rewrite length_app. lia.
        * intros ? ?; simplify_eq. rewrite length_app. cbn. split; [lia|].
          intros [Hin|Hin%list_elem_of_singleton]%elem_of_app; [|lia].
          rewrite Forall_forall in Hrs. specialize (Hrs _ Hin). cbn in Hrs. lia.
      + unfold view_of. cbn. f_equal. f_equal.
        * by rewrite list_lookup_middle.
        * rewrite omap_app, omap_lookup_app by done. cbn.
          by rewrite lookup_app_l, Hlr by lia.
    - rewrite Hr'. cbn. eexists. split; [done|]. split.
      + split; cbn.
        * by rewrite take_app_le.
        * eapply Forall_impl; [exact Hr|]. cbn. intros ? ?. rewrite length_app. lia.
        * intros ? ?; simplify_eq. rewrite length_app. cbn. split; [lia|].
          intros Hin.
          rewrite Forall_forall in Hrs. specialize (Hrs _ Hin). cbn in Hrs. lia.
      + unfold view_of. cbn. f_equal. f_equal.
        * by rewrite list_lookup_middle.
        * by rewrite omap_lookup_app. }
  destruct (current_record st) as [l|] eqn:Hcur; cbn.
  2:{ eexists. split; [done|].
      split; [|unfold view_of; cbn; by rewrite Hcur].
      split; cbn; [done|done|]. intros ?; by rewrite Hcur. }
  destruct (Hc l eq_refl) as [Hl Hni].
  destruct (lookup_lt_is_Some_2 (heap st) l) as [r Hlr]; [lia|].
  unfold update_record, vupdate, deref. cbn. rewrite Hlr. cbn.
  destruct (record_line_ok lines (strip raw) (S (i st)) r Hlt)
    as (r' & j' & c & -> & _ & _). cbn.
  destruct c; (eexists; split; [done|]; split).
  - split; cbn.
    + by rewrite take_insert_ge by lia.
    + rewrite length_insert. apply Forall_app. split; [done|].
      constructor; [lia | constructor].
    + done.
  - unfold view_of. cbn. f_equal. f_equal.
    rewrite omap_app, omap_lookup_insert by done. cbn.
    by rewrite list_lookup_insert_eq by lia.
  - split; cbn.
    + by rewrite take_insert_ge by lia.
    + by rewrite length_insert.
    + intros ? ?; simplify_eq. by rewrite length_insert.
  - unfold view_of. cbn. rewrite Hcur. cbn. f_equal. f_equal.
    + by rewrite list_lookup_insert_eq by lia.
    + by rewrite omap_lookup_insert.
Qed.

(** The cursor of a round that ends well, in any state. *)
Lemma body_cursor lines st st' :
  i st < length lines → body lines st = Ok st' → i st < i st' ≤ length lines.
Proof.
  intros Hlt. unfold body.
  destruct (getitem_lt lines (i st) Hlt) as (raw & _ & ->). cbn.
  destruct (negb _ || _); [intros; simplify_eq; cbn; lia|].
  destruct (is_day_header_ok (split_ws_1 (strip raw))) as [hd ->]. cbn.
  destruct hd.
  { destruct (header_date_ok lines (split_ws_1 (strip raw)) (S (i st)) Hlt)
      as (d & j' & -> & Hj'). cbn. intros; simplify_eq; cbn; lia. }
  destruct (startswith _ _); [intros; simplify_eq; cbn; lia|].
  destruct (date_active _); [|intros; simplify_eq; cbn; lia].
  destruct (re_time _).
  { unfold open_record. cbn.
    destruct (new_record_ok (default [] (current_date st)) (strip raw))
      as (r' & Hr' & _).
    destruct (current_record st) as [l|]; cbn.
    - destruct (deref (heap st) l); cbn; [|done..].
      rewrite Hr'. cbn. intros; simplify_eq; cbn; lia.
    - rewrite Hr'. cbn. intros; simplify_eq; cbn; lia. }
  destruct (current_record st) as [l|]; [|intros; simplify_eq; cbn; lia].
  unfold update_record. cbn.
  destruct (deref (heap st) l) as [r| |]; cbn; [|done..].
  destruct (record_line_ok lines (strip raw) (S (i st)) r Hlt)
    as (r' & j' & c & -> & Hj' & _). cbn.
  destruct c; intros; simplify_eq; cbn; lia.
Qed.

(** ** The rounds of the loop *)

Lemma store_ok_init h : store_ok h (init h).
Proof.
  split; cbn; [by rewrite firstn_all | constructor | done].
Qed.

Lemma view_ok_init h : view_ok (view_of (init h)).
Proof. split; cbn; [done | done | constructor]. Qed.

Lemma rounds_exit k lines st :
  length lines ≤ i st → rounds k lines st = Ok st.
Proof.
  intros Hle. destruct k; [done|]. cbn.
  by rewrite bool_decide_eq_false_2 by lia.
Qed.

Lemma rounds_add k m lines st :
  rounds (k + m) lines st = rounds k lines st ≫= rounds m lines.
Proof.
  revert st. induction k as [|k IH]; intros st; [done|].
  cbn [rounds Nat.add]. case_bool_decide as Hlt.
  - destruct (body lines st) as [st1| |]; cbn; [apply IH | done..].
  - cbn. by rewrite rounds_exit by lia.
Qed.

(** The rounds in the store end well, go through the values of the rounds
    on values, only append to the output, and reach the end of the lines
    after as many rounds as there are lines. *)
Lemma rounds_refines lines h0 k st :
  store_ok h0 st → view_ok (view_of st) → i st ≤ length lines →
  ∃ st', rounds k lines st = Ok st' ∧ store_ok h0 st' ∧ view_ok (view_of st')
    ∧ vrounds k lines (view_of st) = Ok (view_of st')
    ∧ v_out (view_of st) `prefix_of` v_out (view_of st')
    ∧ i st' ≤ length lines
    ∧ (i st' = length lines ∨ i st + k ≤ i st').
Proof.
  revert st. induction k as [|k IH]; intros st Hs Hv Hi.
  { exists st. cbn. split_and!; try done. right; lia. }
  cbn [rounds vrounds]. change (v_i (view_of st)) with (i st).
  case_bool_decide as Hlt.
  2:{ exists st. split_and!; try done. left; lia. }
  destruct (body_refines lines h0 st Hs Hv Hlt) as (st1 & -> & Hs1 & Hvb).
  destruct (vbody_ok lines (view_of st) Hv Hlt) as (v1 & Hvb' & Hi1 & Hp1 & Hv1).
  rewrite Hvb in Hvb'. simplify_eq. rewrite Hvb. cbn.
  change (v_i (view_of st)) with (i st) in Hi1.
  change (v_i (view_of st1)) with (i st1) in Hi1.
  destruct (IH st1 Hs1 Hv1 ltac:(lia)) as (st' & -> & ? & ? & -> & Hp & ? & Hk).
  exists st'. split_and!; try done.
  - by etrans.
  - destruct Hk; [by left | right; lia].
Qed.

Lemma view_out_deref h0 st :
  store_ok h0 st →
  deref_all (heap st) (records st) = Ok (v_out (view_of st)).
Proof. intros Hs. apply deref_all_ok. by eapply store_ok_records. Qed.

(** The whole scan, in any store. *)
Lemma scan_refines lines h :
  ∃ st, rounds (length lines) lines (init h) = Ok st
    ∧ iter (length lines) lines (init h) = Ok st
    ∧ scan h lines = Ok (records st, heap st)
    ∧ store_ok h st ∧ view_ok (view_of st)
    ∧ vrounds (length lines) lines (mkView 0 None None []) = Ok (view_of st)
    ∧ i st = length lines.
Proof.
  destruct (rounds_refines lines h (length lines) (init h)
              (store_ok_init h) (view_ok_init h)) as
    (st & Hr & Hs & Hv & Hvr & _ & Hle & Hk); [cbn; lia|].
  assert (i st = length lines) as Hi by (cbn in Hk; lia).
  exists st. unfold scan, iter. rewrite Hr. cbn.
  rewrite bool_decide_eq_false_2 by lia. by split_and!.
Qed.

Lemma parse_refines lines :
  ∃ st, scan [] lines = Ok (records st, heap st)
    ∧ parse_payroll_pdf lines = Ok (v_out (view_of st))
    ∧ view_ok (view_of st)
    ∧ vrounds (length lines) lines (mkView 0 None None []) = Ok (view_of st).
Proof.
  destruct (scan_refines lines []) as (st & _ & _ & Hsc & Hs & Hv & Hvr & _).
  exists st. unfold parse_payroll_pdf. rewrite Hsc. cbn.
  by rewrite (view_out_deref [] st).
Qed.

(** ** Which rule a line falls under *)

Lemma takewhile_app_all p (q s : str) :
  Forall (λ c, p c = true) q → takewhile p (q ++ s) = q ++ takewhile p s.
Proof.
  induction 1 as [|c q Hc _ IH]; [done|]. cbn. by rewrite Hc, IH.
Qed.

Lemma startswith_app (s p : str) : startswith s p = true → ∃ t, s = p ++ t.
Proof.
  revert s. induction p as [|a p IH]; intros s; [by exists s|].
  destruct s as [|c s]; [done|]. unfold startswith; fold startswith.
  intros [->%N.eqb_eq Hp]%andb_true_iff.
  destruct (IH s Hp) as [t ->]. by exists t.
Qed.

(** The first word of a line that begins with the characters [p], none of
    them blank, begins with [p]. *)
Lemma split_ws_1_prefix (p s : str) :
  p ≠ [] → Forall (λ c, isspace c = false) p →
  ∃ tl, split_ws_1 (p ++ s) = (p ++ takewhile (λ c, negb (isspace c)) s) :: tl.
Proof.
  intros Hp Hall. unfold split_ws_1, lstrip.
  destruct p as [|c p]; [done|].
  pose proof (Forall_inv Hall) as Hc. cbn beta in Hc.
  rewrite <- app_comm_cons, dropwhile_id by done.
  rewrite app_comm_cons, takewhile_app_all.
  2:{ eapply Forall_impl; [done|]. cbn. by intros ? ->. }
  destruct (dropwhile isspace _); by eexists.
Qed.

Lemma header_false_prefix (p s : str) :
  p ≠ [] → Forall (λ c, isspace c = false) p →
  Forall (λ d, take (length p) d ≠ p) day_names →
  is_day_header (split_ws_1 (p ++ s)) = Ok false.
Proof.
  intros Hp Hall Hdays.
  destruct (split_ws_1_prefix p s Hp Hall) as [tl ->].
  unfold is_day_header. rewrite getitem_head. cbn.
  rewrite bool_decide_eq_false_2; [done|].
  intros Hin. rewrite Forall_forall in Hdays.
  apply (Hdays _ Hin). by rewrite take_app_length.
Qed.

Lemma digits_n_head n (s r : str) :
  digits_n (S n) s = Some r → ∃ c t, s = c :: t ∧ isdigit c = true.
Proof.
  cbn. destruct s as [|c t]; [done|].
  destruct (isdigit c) eqn:Hc; [|done]. by exists c, t.
Qed.

Lemma re_time_head (s : str) :
  re_time s = true → ∃ c t, s = c :: t ∧ isdigit c = true.
Proof.
  unfold re_time, matched. intros [H|H]%orb_true_iff.
  - destruct (digits_n 2 s) eqn:Hd; [by eapply digits_n_head | done].
  - destruct (digits_n 1 s) eqn:Hd; [by eapply digits_n_head | done].
Qed.

(** What holds of the lines of [skip_lines], by evaluation. *)
Lemma skip_lines_facts (l : str) :
  l ∈ skip_lines →
  re_time l = false ∧ startswith l (lit "Totals:") = false
  ∧ search_triple l = None ∧ is_day_header (split_ws_1 l) = Ok false.
Proof.
  unfold skip_lines. intros H.
  repeat (apply elem_of_cons in H as [->|H]; [by vm_compute|]).
  by apply elem_of_nil in H.
Qed.

(** A line that begins with a time stamp falls under none of the rules
    that come before the time stamp rule. *)
Lemma time_line_dispatch (line : str) :
  re_time line = true →
  truthy line = true ∧ bool_decide (line ∈ skip_lines) = false
  ∧ is_day_header (split_ws_1 line) = Ok false
  ∧ startswith line (lit "Totals:") = false.
Proof.
  intros Ht. destruct (re_time_head _ Ht) as (c & t & -> & Hc).
  split_and!.
  - done.
  - apply bool_decide_eq_false_2. intros Hin.
    apply skip_lines_facts in Hin as [Hin _]. congruence.
  - apply (header_false_prefix [c] t); [done | |].
    + constructor; [by apply digit_not_space | constructor].
    + unfold day_names.
      repeat (constructor;
              [intros Heq; vm_compute in Heq; simplify_eq; by vm_compute in Hc|]).
      constructor.
  - destruct (startswith (c :: t) (lit "Totals:")) eqn:Hs; [|done].
    apply startswith_app in Hs as [u Hu]. vm_compute in Hu.
    injection Hu as -> _. by vm_compute in Hc.
Qed.

(** A line that begins with [Totals:] falls under none of the rules that
    come before the totals rule. *)
Lemma totals_line_dispatch (line : str) :
  startswith line (lit "Totals:") = true →
  truthy line = true ∧ bool_decide (line ∈ skip_lines) = false
  ∧ is_day_header (split_ws_1 line) = Ok false.
Proof.
  intros Hs. pose proof Hs as [t ->]%startswith_app.
  split_and!.
  - done.
  - apply bool_decide_eq_false_2. intros Hin.
    apply skip_lines_facts in Hin as (_ & Hin & _). congruence.
  - apply header_false_prefix; [done | |].
    + by repeat (constructor; [by vm_compute|]).
    + unfold day_names. by repeat (constructor; [by vm_compute|]).
Qed.

(** A line whose first word is the name of a day is neither blank nor one
    of [skip_lines]. *)
Lemma header_line_dispatch (line w : str) tl :
  split_ws_1 line = w :: tl → w ∈ day_names →
  truthy line = true ∧ bool_decide (line ∈ skip_lines) = false
  ∧ is_day_header (split_ws_1 line) = Ok true.
Proof.
  intros Hsp Hw. split_and!.
  - by destruct line.
  - apply bool_decide_eq_false_2. intros Hin.
    apply skip_lines_facts in Hin as (_ & _ & _ & Hin).
    rewrite Hsp in Hin. unfold is_day_header in Hin.
    rewrite getitem_head in Hin. cbn in Hin.
    by rewrite bool_decide_eq_true_2 in Hin.
  - rewrite Hsp. unfold is_day_header.
    rewrite getitem_head. cbn. by rewrite bool_decide_eq_true_2.
Qed.


Lemma reachable_ok lines h k st :
  rounds k lines (init h) = Ok st → store_ok h st ∧ view_ok (view_of st).
Proof.
  intros Hr.
  destruct (rounds_refines lines h k (init h) (store_ok_init h) (view_ok_init h))
    as (st' & Hr' & Hs & Hv & _); [cbn; lia|].
  rewrite Hr in Hr'. by simplify_eq.
Qed.

(** In a state of the scan the open record is in the store, and it has no
    triple; outside a section no record is open. *)
Lemma reachable_current lines h k st :
  rounds k lines (init h) = Ok st →
  (∀ l, current_record st = Some l →
        ∃ r, heap st !! l = Some r ∧ triple_unset r)
  ∧ (date_active (current_date st) = false → current_record st = None).
Proof.
  intros [Hs Hv]%reachable_ok.
  assert (∀ l, current_record st = Some l →
               ∃ r, heap st !! l = Some r ∧ triple_unset r) as Hcur.
  { intros l Hl. destruct (ok_current _ _ Hs l Hl) as [Hlt _].
    destruct (lookup_lt_is_Some_2 (heap st) l) as [r Hr]; [lia|].
    exists r. split; [done|]. apply (ok_cur _ Hv).
    unfold view_of. cbn. by rewrite Hl. }
  split; [done|]. intros Hd.
  destruct (current_record st) as [l|] eqn:Hl; [|done].
  destruct (Hcur l eq_refl) as (r & Hr & _).
  pose proof (ok_date _ Hv Hd) as Hnone.
  unfold view_of in Hnone. cbn in Hnone. rewrite Hl in Hnone. cbn in Hnone.
  congruence.
Qed.

(** The rounds of a line that is neither blank, nor a label, nor a
    header, nor a totals line. *)
Lemma body_dispatch lines st raw :
  lines !! i st = Some raw →
  truthy (strip raw) = true → bool_decide (strip raw ∈ skip_lines) = false →
  is_day_header (split_ws_1 (strip raw)) = Ok false →
  startswith (strip raw) (lit "Totals:") = false →
  body lines st =
  if date_active (current_date st) then
    if re_time (strip raw)
    then open_record (default [] (current_date st)) (strip raw)
                     (set_i (S (i st)) st)
    else match current_record st with
         | Some l => update_record lines (strip raw) l (set_i (S (i st)) st)
         | None => Ok (set_i (S (i st)) st)
         end
  else Ok (set_i (S (i st)) st).
Proof.
  intros Hraw Ht Hsk Hh Hs. unfold body.
  rewrite (getitem_lookup _ _ _ Hraw). cbn.
  by rewrite Ht, Hsk, Hh, Hs.
Qed.

(** * The claims *)

(** C4, scenario A: the three lines [Tuesday 04.02.2025], [18:30 Spin Class]
    and [Studio A 10/8/2 5,00 € 10,00 € 40,00 €] give exactly one record,
    with the date 04.02.2025, the time 18:30, the event Spin Class, the
    studio Studio A, 10 bookings, 8 attended, 2 no-shows and the total
    40,00. *)
Theorem scenario_minimal_record :
  parse_payroll_pdf
    [lit "Tuesday 04.02.2025"; lit "18:30 Spin Class";
     lit "Studio A 10/8/2 5,00 € 10,00 € 40,00 €"]
  = Ok [Rec.mk (lit "04.02.2025") (lit "18:30") (lit "Spin Class")
               (lit "Studio A") (Some 10%Z) (Some 8%Z) (Some 2%Z)
               (Some (lit "40,00"))].
Proof. vm_compute. reflexivity. Qed.

(** With the limit of [int] off, the scan raises on no line sequence: the
    function returns a list of records for every list of lines, and every
    round of the loop, from any store, ends without an exception: each index
    is within the list it reads and each [int] reads digits that a pattern
    matched. *)
Lemma scan_returns_without_limit (lines : list str) :
  (∃ rs, parse_payroll_pdf lines = Ok rs)
  ∧ (∀ h k, ∃ st, rounds k lines (init h) = Ok st).
Proof.
  split.
  - destruct (parse_refines lines) as (st & _ & Hp & _). by eexists.
  - intros h k.
    destruct (rounds_refines lines h k (init h) (store_ok_init h)
                (view_ok_init h)) as (st & Hr & _); [cbn; lia|].
    by exists st.
Qed.

(** ** The scan under the limit of [int] *)

Lemma py_int_lim_cases m (s : str) :
  py_int_lim m s = py_int s ∨ py_int_lim m s = Raise ValueError.
Proof. unfold py_int_lim. case_bool_decide; [by right | by left]. Qed.

Lemma py_int_lim_short m (s : str) :
  m = 0 ∨ length s ≤ m → py_int_lim m s = py_int s.
Proof.
  intros H. unfold py_int_lim. rewrite bool_decide_eq_false_2; [done|]. lia.
Qed.

(** A computation that differs from another by calls of [py_int_lim] for
    [py_int] yields the same, or raises [ValueError]. *)
Lemma bind_lim {X Y} (a' a : outcome X) (f' f : X → outcome Y) :
  a' = a ∨ a' = Raise ValueError →
  (∀ x, f' x = f x ∨ f' x = Raise ValueError) →
  a' ≫= f' = a ≫= f ∨ a' ≫= f' = Raise ValueError.
Proof.
  intros [->| ->] Hf; [|by right].
  destruct a as [x| |]; [apply Hf | by left..].
Qed.

Lemma triple_branch_lim_cases m lines line idx j r :
  triple_branch_lim m lines line idx j r = triple_branch lines line idx j r
  ∨ triple_branch_lim m lines line idx j r = Raise ValueError.
Proof.
  unfold triple_branch_lim, triple_branch.
  destruct (re_ban (strip (drop idx line))) as [g|]; [|by left].
  apply bind_lim; [apply py_int_lim_cases|]. intros b.
  apply bind_lim; [apply py_int_lim_cases|]. intros a.
  apply bind_lim; [apply py_int_lim_cases|]. intros n. by left.
Qed.

Lemma record_line_lim_cases m lines line j r :
  record_line_lim m lines line j r = record_line lines line j r
  ∨ record_line_lim m lines line j r = Raise ValueError.
Proof.
  unfold record_line_lim, record_line.
  destruct (startswith line [40%N]); [by left|].
  destruct (_ && _ && _ && _); [by left|].
  apply bind_lim; [by left|]. intros [r'|]; [by left|].
  destruct (search_triple line); [apply triple_branch_lim_cases | by left].
Qed.

Lemma update_record_lim_cases m lines line l st :
  update_record_lim m lines line l st = update_record lines line l st
  ∨ update_record_lim m lines line l st = Raise ValueError.
Proof.
  unfold update_record_lim, update_record.
  apply bind_lim; [by left|]. intros r.
  apply bind_lim; [apply record_line_lim_cases|]. intros [[r' j'] c]. by left.
Qed.

Lemma body_lim_cases m lines st :
  body_lim m lines st = body lines st
  ∨ body_lim m lines st = Raise ValueError.
Proof.
  unfold body_lim, body. apply bind_lim; [by left|]. intros raw. cbn zeta.
  destruct (negb _ || _); [by left|].
  apply bind_lim; [by left|]. intros hd. destruct hd; [by left|].
  destruct (startswith _ _); [by left|].
  destruct (date_active _); [|by left].
  destruct (re_time _); [by left|].
  destruct (current_record _); [apply update_record_lim_cases | by left].
Qed.

Lemma rounds_lim_cases m k lines st :
  rounds_lim m k lines st = rounds k lines st
  ∨ rounds_lim m k lines st = Raise ValueError.
Proof.
  revert st. induction k as [|k IH]; intros st; [by left|].
  cbn [rounds_lim rounds]. case_bool_decide; [|by left].
  apply bind_lim; [apply body_lim_cases | apply IH].
Qed.

Lemma parse_lim_cases m lines :
  parse_payroll_pdf_lim m lines = parse_payroll_pdf lines
  ∨ parse_payroll_pdf_lim m lines = Raise ValueError.
Proof.
  unfold parse_payroll_pdf_lim, parse_payroll_pdf, scan_lim, scan, iter_lim, iter.
  apply bind_lim; [|by left].
  apply bind_lim; [|by left].
  apply bind_lim; [apply rounds_lim_cases | by left].
Qed.

Lemma takewhile_dropwhile p (s : str) : takewhile p s ++ dropwhile p s = s.
Proof. induction s as [|c s IH]; cbn; [done|]. destruct (p c); cbn; by f_equal. Qed.

(** The groups of a triple are no longer than the text they are found in. *)
Lemma length_dropwhile p (s : str) : length (dropwhile p s) ≤ length s.
Proof.
  rewrite <- (takewhile_dropwhile p s) at 2. rewrite length_app. lia.
Qed.

Lemma length_strip (s : str) : length (strip s) ≤ length s.
Proof.
  unfold strip, rstrip, lstrip. rewrite length_reverse.
  etrans; [apply length_dropwhile|]. rewrite length_reverse.
  apply length_dropwhile.
Qed.

Lemma digits1_length (s ds rest : str) :
  digits1 s = Some (ds, rest) → length ds ≤ length s ∧ length rest ≤ length s.
Proof.
  unfold digits1. intros H.
  assert (ds = takewhile isdigit s ∧ rest = dropwhile isdigit s) as [-> ->].
  { destruct (takewhile isdigit s); [done|]. by simplify_eq. }
  rewrite <- (takewhile_dropwhile isdigit s) at 2 4. rewrite length_app. lia.
Qed.

Lemma expect_length c (s s' : str) : expect c s = Some s' → length s' ≤ length s.
Proof.
  unfold expect. destruct s as [|d t]; [done|].
  destruct (d =? c)%N; [|done]. intros [= <-]. cbn. lia.
Qed.

Lemma triple_at_length (s g1 g2 g3 rest : str) :
  triple_at s = Some (g1, g2, g3, rest) →
  length g1 ≤ length s ∧ length g2 ≤ length s ∧ length g3 ≤ length s.
Proof.
  unfold triple_at. intros H.
  destruct (digits1 s) as [[d1 r1]|] eqn:H1; [|done].
  cbn [mbind option_bind fst snd] in H.
  destruct (expect 47%N (lstrip r1)) as [s1|] eqn:E1; [|done].
  cbn [mbind option_bind fst snd] in H.
  destruct (digits1 (lstrip s1)) as [[d2 r2]|] eqn:H2; [|done].
  cbn [mbind option_bind fst snd] in H.
  destruct (expect 47%N (lstrip r2)) as [s2|] eqn:E2; [|done].
  cbn [mbind option_bind fst snd] in H.
  destruct (digits1 (lstrip s2)) as [[d3 r3]|] eqn:H3; [|done].
  cbn [mbind option_bind fst snd] in H. injection H as <- <- <- <-.
  apply digits1_length in H1 as [? ?], H2 as [? ?], H3 as [? ?].
  apply expect_length in E1, E2.
  pose proof (length_dropwhile isspace r1). pose proof (length_dropwhile isspace s1).
  pose proof (length_dropwhile isspace r2). pose proof (length_dropwhile isspace s2).
  unfold lstrip in *. lia.
Qed.

Lemma triple_branch_lim_short m lines (line : str) idx j r :
  m = 0 ∨ length line ≤ m →
  triple_branch_lim m lines line idx j r = triple_branch lines line idx j r.
Proof.
  intros Hm. unfold triple_branch_lim, triple_branch.
  destruct (re_ban (strip (drop idx line))) as [[[[g1 g2] g3] g4]|] eqn:Hb;
    [|done].
  unfold re_ban in Hb.
  destruct (triple_at (strip (drop idx line))) as [[[[h1 h2] h3] h4]|] eqn:Ht;
    [|done].
  cbn [mbind option_bind fst snd] in Hb. injection Hb as <- <- <- <-.
  apply triple_at_length in Ht as (L1 & L2 & L3).
  pose proof (length_strip (drop idx line)) as Ls.
  rewrite length_drop in Ls. cbn [fst snd].
  by rewrite !py_int_lim_short by lia.
Qed.

Lemma record_line_lim_short m lines (line : str) j r :
  m = 0 ∨ length line ≤ m →
  record_line_lim m lines line j r = record_line lines line j r.
Proof.
  intros Hm. unfold record_line_lim, record_line.
  destruct (search_triple line); [|done].
  by rewrite triple_branch_lim_short.
Qed.

Lemma getitem_elem {X} (l : list X) k x : getitem l k = Ok x → x ∈ l.
Proof.
  unfold getitem. destruct (_ || _); [done|].
  destruct (l !! _) as [y|] eqn:Hy; [|done].
  intros [= <-]. by eapply list_elem_of_lookup_2.
Qed.

Lemma update_record_lim_short m lines (line : str) l st :
  m = 0 ∨ length line ≤ m →
  update_record_lim m lines line l st = update_record lines line l st.
Proof.
  intros Hm. unfold update_record_lim, update_record.
  destruct (deref (heap st) l) as [r| |]; [|done..].
  rewrite !bind_Ok_l. by rewrite record_line_lim_short.
Qed.

Lemma body_lim_short m lines st :
  m = 0 ∨ Forall (λ l : str, length l ≤ m) lines →
  body_lim m lines st = body lines st.
Proof.
  intros Hm. unfold body_lim, body.
  destruct (getitem lines (Z.of_nat (i st))) as [raw| |] eqn:Hg; [|done..].
  rewrite !bind_Ok_l. cbn zeta.
  assert (m = 0 ∨ length (strip raw) ≤ m) as Hraw.
  { destruct Hm as [->|Hall]; [by left|]. right.
    rewrite Forall_forall in Hall. pose proof (Hall _ (getitem_elem _ _ _ Hg)).
    pose proof (length_strip raw). lia. }
  destruct (negb _ || _); [done|].
  destruct (is_day_header _) as [[|]| |]; [done| |done..].
  rewrite !bind_Ok_l.
  destruct (startswith _ _); [done|].
  destruct (date_active _); [|done].
  destruct (re_time _); [done|].
  destruct (current_record _); [|done].
  by apply update_record_lim_short.
Qed.

Lemma rounds_lim_short m k lines st :
  m = 0 ∨ Forall (λ l : str, length l ≤ m) lines →
  rounds_lim m k lines st = rounds k lines st.
Proof.
  intros Hm. revert st. induction k as [|k IH]; intros st; [done|].
  cbn [rounds_lim rounds]. rewrite body_lim_short by done.
  case_bool_decide; [|done].
  destruct (body lines st) as [st'| |]; [|done..].
  rewrite !bind_Ok_l. apply IH.
Qed.

(** X15: what the limit of [int] changes.  Under a limit of [m] digits
    (4300 unless the interpreter is told otherwise, 0 for none), the scan
    either returns the very list that it returns with the limit off, or
    raises [ValueError]; no other exception is raised, and no other list is
    returned.  It returns that list whenever the limit is off or no line has
    more than [m] characters.  The same holds of the rounds of the loop from
    any store. *)
Theorem scan_raises_on_digit_limit_only (m : nat) (lines : list str) :
  (∃ rs, parse_payroll_pdf lines = Ok rs
         ∧ (parse_payroll_pdf_lim m lines = Ok rs
            ∨ parse_payroll_pdf_lim m lines = Raise ValueError))
  ∧ (m = 0 ∨ Forall (λ l : str, length l ≤ m) lines →
     parse_payroll_pdf_lim m lines = parse_payroll_pdf lines)
  ∧ (∀ h k, ∃ st, rounds k lines (init h) = Ok st
                  ∧ (rounds_lim m k lines (init h) = Ok st
                     ∨ rounds_lim m k lines (init h) = Raise ValueError)).
Proof.
  destruct (scan_returns_without_limit lines) as [[rs Hrs] Hrounds].
  split_and!.
  - exists rs. split; [done|]. rewrite <- Hrs. apply parse_lim_cases.
  - intros Hm.
    unfold parse_payroll_pdf_lim, parse_payroll_pdf, scan_lim, scan,
      iter_lim, iter.
    by rewrite rounds_lim_short.
  - intros h k. destruct (Hrounds h k) as [st Hst]. exists st.
    split; [done|]. rewrite <- Hst. apply rounds_lim_cases.
Qed.

(** C7: the scan raises on a number of more than 4300 digits.  On a header,
    a time stamp and a triple whose third number has 4301 digits, under the
    limit of [int] that the interpreter has unless told otherwise, the call
    of [int] on line 178 raises [ValueError] and nothing catches it: the
    function returns no list.  With the limit off the same lines give a
    list. *)
Theorem long_number_raises :
  parse_payroll_pdf_lim int_max_str_digits long_number_lines = Raise ValueError
  ∧ (∀ rs, parse_payroll_pdf_lim int_max_str_digits long_number_lines ≠ Ok rs)
  ∧ (∃ rs, parse_payroll_pdf long_number_lines = Ok rs).
Proof.
  assert (parse_payroll_pdf_lim int_max_str_digits long_number_lines
          = Raise ValueError) as H by (vm_compute; reflexivity).
  split_and!; [exact H | by rewrite H |].
  destruct (parse_refines long_number_lines) as (st & _ & Hp & _). by eexists.
Qed.

(** C10: the scan terminates.  A round of the loop that starts with the
    cursor within the lines leaves it strictly further, and at most at the
    end of the lines; so the loop, given as many rounds as there are lines,
    exits with the cursor at the end of the lines. *)
Theorem scan_terminates (lines : list str) :
  (∀ st st', i st < length lines → body lines st = Ok st' →
             i st < i st' ≤ length lines)
  ∧ (∀ h, ∃ st, iter (length lines) lines (init h) = Ok st
                ∧ i st = length lines).
Proof.
  split.
  - apply body_cursor.
  - intros h. destruct (scan_refines lines h) as (st & _ & Hit & _ & _ & _ & _ & Hi).
    by exists st.
Qed.

(** C8: the output is only appended to.  The list of records after [k]
    rounds of the loop, read in the store of that moment, is a prefix of
    the list after any later round [k'], read in the store of that later
    moment: no record is removed, and none is changed once in the list. *)
Theorem output_append_only (lines : list str) h (k k' : nat) :
  k ≤ k' →
  ∃ st st' out out',
    rounds k lines (init h) = Ok st ∧ rounds k' lines (init h) = Ok st'
    ∧ deref_all (heap st) (records st) = Ok out
    ∧ deref_all (heap st') (records st') = Ok out'
    ∧ out `prefix_of` out' ∧ length out ≤ length out'.
Proof.
  intros Hk.
  destruct (rounds_refines lines h k (init h) (store_ok_init h) (view_ok_init h))
    as (st & Hr & Hs & Hv & _ & _ & Hi & _); [cbn; lia|].
  destruct (rounds_refines lines h (k' - k) st Hs Hv Hi)
    as (st' & Hr' & Hs' & _ & _ & Hp & _).
  exists st, st', (v_out (view_of st)), (v_out (view_of st')).
  split_and!; try done.
  - replace k' with (k + (k' - k)) by lia. rewrite rounds_add, Hr. apply Hr'.
  - by eapply view_out_deref.
  - by eapply view_out_deref.
  - by apply prefix_length.
Qed.

(** C9: the scan is a function of the lines.  Whatever the store holds
    when the scan starts, the records it returns are those of
    [parse_payroll_pdf lines]; a second scan of the same lines, run in the
    store that the first one left, returns records equal to the first ones
    and leaves the first list as it was. *)
Theorem scan_deterministic (lines : list str) h0 :
  ∃ rs out1 h1 out2 h2,
    parse_payroll_pdf lines = Ok rs
    ∧ scan h0 lines = Ok (out1, h1) ∧ deref_all h1 out1 = Ok rs
    ∧ scan h1 lines = Ok (out2, h2) ∧ deref_all h2 out2 = Ok rs
    ∧ deref_all h2 out1 = Ok rs.
Proof.
  destruct (parse_refines lines) as (st0 & _ & Hp & _ & Hv0).
  destruct (scan_refines lines h0) as (st1 & _ & _ & Hsc1 & Hs1 & _ & Hv1 & _).
  destruct (scan_refines lines (heap st1))
    as (st2 & _ & _ & Hsc2 & Hs2 & _ & Hv2 & _).
  assert (view_of st1 = view_of st0) as E1 by congruence.
  assert (view_of st2 = view_of st0) as E2 by congruence.
  exists (v_out (view_of st0)), (records st1), (heap st1), (records st2), (heap st2).
  split_and!; try done.
  - rewrite <- E1. by eapply view_out_deref.
  - rewrite <- E2. by eapply view_out_deref.
  - pose proof (store_ok_records _ _ Hs1) as Hr1.
    rewrite deref_all_ok.
    2:{ eapply Forall_impl; [done|]. cbn. intros l Hl.
        pose proof (store_ok_base_le _ _ Hs2). lia. }
    rewrite (omap_lookup_old (heap st1)); [|by destruct Hs2 | done].
    by rewrite <- E1.
Qed.

(** C1, as the code has it: a record of the output has its three numbers
    either all set (the triple rule appended it) or all unset, with no
    total (a time stamp appended it).  When a time-stamp line is read in a
    section while a record without a triple is open, that record is
    appended to the output as it is, and the new record is opened. *)
Theorem emitted_triple_set_or_flushed (lines : list str) :
  (∃ rs, parse_payroll_pdf lines = Ok rs
         ∧ Forall (λ r, triple_set r ∨ triple_unset r) rs)
  ∧ (∀ h k st raw d l,
       rounds k lines (init h) = Ok st →
       lines !! i st = Some raw → re_time (strip raw) = true →
       current_date st = Some d → truthy d = true →
       current_record st = Some l →
       ∃ r r', heap st !! l = Some r ∧ triple_unset r
         ∧ new_record d (strip raw) = Ok r'
         ∧ body lines st
           = Ok (mkState (S (i st)) (Some d) (Some (length (heap st)))
                         (records st ++ [l]) (heap st ++ [r']))).
Proof.
  split.
  - destruct (parse_refines lines) as (st & _ & Hp & Hv & _).
    eexists. split; [done|]. by destruct Hv.
  - intros h k st raw d l Hr Hraw Ht Hd Htd Hl.
    destruct (reachable_current _ _ _ _ Hr) as [Hcur _].
    destruct (Hcur l Hl) as (r & Hlr & Hun).
    destruct (new_record_ok d (strip raw)) as (r' & Hr' & _).
    exists r, r'. split_and!; try done.
    destruct (time_line_dispatch _ Ht) as (? & ? & ? & ?).
    rewrite (body_dispatch lines st raw) by done.
    rewrite Hd, Ht. cbn. rewrite Htd.
    unfold open_record, deref. cbn. rewrite Hl, Hlr. cbn.
    destruct Hun as [-> _]. rewrite bool_decide_eq_true_2 by done.
    rewrite Hr'. cbn. by rewrite Hd.
Qed.

(** C5: no record outside a section.  In any state of the scan, a line that
    begins with [Totals:] clears the date and the open record and leaves
    the output as it is; and while no date is active no record is open,
    and a time-stamp line changes nothing but the cursor. *)
Theorem no_record_outside_section (lines : list str) h k st raw :
  rounds k lines (init h) = Ok st → lines !! i st = Some raw →
  (startswith (strip raw) (lit "Totals:") = true →
   body lines st = Ok (mkState (S (i st)) None None (records st) (heap st)))
  ∧ (date_active (current_date st) = false → re_time (strip raw) = true →
     current_record st = None ∧ body lines st = Ok (set_i (S (i st)) st)).
Proof.
  intros Hr Hraw. split.
  - intros Hs. destruct (totals_line_dispatch _ Hs) as (Ht & Hsk & Hh).
    unfold body. rewrite (getitem_lookup _ _ _ Hraw). cbn.
    by rewrite Ht, Hsk, Hh, Hs.
  - intros Hd Ht. destruct (reachable_current _ _ _ _ Hr) as [_ Hnone].
    split; [by apply Hnone|].
    destruct (time_line_dispatch _ Ht) as (? & ? & ? & ?).
    rewrite (body_dispatch lines st raw) by done. by rewrite Hd.
Qed.

(** C3, as the code has it: when the text after the name of the day does
    not match the date pattern, and the next line does not either, the
    current date becomes that text as it is, and the open record is
    dropped.  The section is inactive only when there is no such text: then
    a time-stamp line that follows changes nothing but the cursor. *)
Theorem unparsable_header_keeps_text (lines : list str) st raw w tl :
  lines !! i st = Some raw →
  split_ws_1 (strip raw) = w :: tl → w ∈ day_names →
  re_date (default [] (head tl)) = false →
  (∀ nxt, lines !! S (i st) = Some nxt → re_date (strip nxt) = false) →
  let date_str := default [] (head tl) in
  let st1 := mkState (S (i st)) (Some date_str) None (records st) (heap st) in
  body lines st = Ok st1
  ∧ date_active (current_date st1) = truthy date_str
  ∧ (date_str = [] → ∀ raw', lines !! i st1 = Some raw' →
       re_time (strip raw') = true →
       body lines st1 = Ok (set_i (S (i st1)) st1)).
Proof.
  intros Hraw Hsp Hw Hnd Hnext date_str st1. split_and!.
  - destruct (header_line_dispatch _ _ _ Hsp Hw) as (Ht & Hsk & Hh).
    unfold body. rewrite (getitem_lookup _ _ _ Hraw). cbn.
    rewrite Ht, Hsk, Hh. cbn. rewrite Hsp. unfold header_date.
    assert ((if bool_decide (1 < length (w :: tl))
             then getitem (w :: tl) 1 else Ok []) = Ok date_str) as ->.
    { unfold date_str. destruct tl as [|t tl']; [done|].
      rewrite bool_decide_eq_true_2 by (cbn; lia). by apply getitem_1. }
    cbn. fold date_str in Hnd. rewrite Hnd, orb_true_r.
    destruct (decide (S (i st) < length lines)) as [Hlt|Hlt];
      [rewrite bool_decide_eq_true_2 by done
      |by rewrite bool_decide_eq_false_2 by done].
    destruct (getitem_lt lines (S (i st)) Hlt) as (nxt & Hn & ->). cbn.
    by rewrite (Hnext nxt Hn).
  - done.
  - intros Hempty raw' Hraw' Ht.
    destruct (time_line_dispatch _ Ht) as (? & ? & ? & ?).
    rewrite (body_dispatch lines st1 raw') by done.
    cbn. by rewrite Hempty.
Qed.

Lemma update_record_eq lines line l st r r' j' (c : bool) :
  heap st !! l = Some r →
  record_line lines line (i st) r = Ok (r', j', c) →
  update_record lines line l st
  = Ok (if c
        then mkState j' (current_date st) None (records st ++ [l])
                     (<[l := r']> (heap st))
        else mkState j' (current_date st) (current_record st) (records st)
                     (<[l := r']> (heap st))).
Proof.
  intros Hl Hr. unfold update_record, deref. rewrite Hl. cbn. rewrite Hr.
  cbn. by destruct c.
Qed.

Lemma record_line_pilates_studio lines j r :
  Rec.event r = [] → Rec.studio r = [] →
  record_line lines (lit "Pilates Pilates Studio B (12)") j r
  = Ok (Rec.set_studio (lit "(12)")
          (Rec.set_event (lit "Pilates Pilates Studio B") r), j, false).
Proof.
  destruct r as [da ti ev stu b a n to]. cbn. intros -> ->.
  vm_compute. reflexivity.
Qed.

Lemma record_line_pilates_twice lines j r :
  Rec.event r = [] → Rec.studio r = [] →
  record_line lines (lit "Pilates Pilates (12)") j r
  = Ok (Rec.set_studio (lit "Pilates (12)")
          (Rec.set_event (lit "Pilates") r), j, false).
Proof.
  destruct r as [da ti ev stu b a n to]. cbn. intros -> ->.
  vm_compute. reflexivity.
Qed.

(** C2, as the code has it: the duplicate test looks at the last word of
    the event part only, against the word before it and else against the
    first word.  In [Pilates Pilates Studio B (12)] the last word is [B]:
    nothing is stripped, the event is [Pilates Pilates Studio B] and the
    studio is [(12)].  In [Pilates Pilates (12)] the last word repeats the
    one before it: the event is [Pilates] and the studio [Pilates (12)]. *)
Theorem capacity_split_last_word (lines : list str) st raw d l r line ev stu :
  (line, ev, stu) ∈ pilates_cases →
  lines !! i st = Some raw → strip raw = line →
  current_date st = Some d → truthy d = true →
  current_record st = Some l → heap st !! l = Some r →
  Rec.event r = [] → Rec.studio r = [] →
  body lines st
  = Ok (mkState (S (i st)) (Some d) (Some l) (records st)
          (<[l := Rec.set_studio stu (Rec.set_event ev r)]> (heap st))).
Proof.
  intros Hcase Hraw Hline Hd Htd Hl Hlr He Hs.
  assert (truthy line = true ∧ bool_decide (line ∈ skip_lines) = false
          ∧ is_day_header (split_ws_1 line) = Ok false
          ∧ startswith line (lit "Totals:") = false
          ∧ re_time line = false
          ∧ record_line lines line (S (i st)) r
            = Ok (Rec.set_studio stu (Rec.set_event ev r), S (i st), false))
    as (Ht & Hsk & Hh & Hto & Hti & Hrl).
  { unfold pilates_cases in Hcase.
    apply elem_of_cons in Hcase as [Hc|Hcase].
    { injection Hc as -> -> ->.
      split_and!; [by vm_compute.. | by apply record_line_pilates_studio]. }
    apply elem_of_cons in Hcase as [Hc|Hcase].
    { injection Hc as -> -> ->.
      split_and!; [by vm_compute.. | by apply record_line_pilates_twice]. }
    by apply elem_of_nil in Hcase. }
  rewrite <- Hline in Ht, Hsk, Hh, Hto, Hti, Hrl.
  rewrite (body_dispatch lines st raw Hraw Ht Hsk Hh Hto).
  rewrite Hd, Hl, Hti. change (date_active (Some d)) with (truthy d).
  rewrite Htd.
  erewrite update_record_eq; [|exact Hlr|exact Hrl].
  cbn. by rewrite Hd, Hl.
Qed.






(** * The claims on concrete inputs *)

(** A triple with one amount behind it: neither the amounts nor the parts
    between currency signs are three, the record is appended with its
    numbers and without a total, and the cursor moves by one line. *)
Example one_amount_commits_without_total :
  body one_amount_lines flush_state
  = Ok (mkState 3 (Some d0402) None [0]
          [Rec.mk d0402 (lit "18:30") (lit "Spin Class") (lit "Studio A")
                  (Some 10%Z) (Some 8%Z) (Some 2%Z) None]).
Proof. vm_compute. reflexivity. Qed.

(** C1 as stated fails: two time stamps with no triple between them emit
    one record, and its triple is not set. *)
Lemma incomplete_record_is_emitted :
  parse_payroll_pdf flush_lines = Ok [fresh_record (lit "Spin Class")]
  ∧ ¬ triple_set (fresh_record (lit "Spin Class")).
Proof.
  split; [vm_compute; reflexivity|].
  intros [[b Hb] _]. discriminate Hb.
Qed.

(** The flush at the second time stamp of [flush_lines]. *)
Lemma emitted_triple_set_or_flushed_witness :
  rounds 2 flush_lines (init []) = Ok flush_state
  ∧ flush_lines !! i flush_state = Some (lit "19:30 Yoga")
  ∧ re_time (strip (lit "19:30 Yoga")) = true
  ∧ current_date flush_state = Some d0402 ∧ truthy d0402 = true
  ∧ current_record flush_state = Some 0
  ∧ ∃ r r', heap flush_state !! 0 = Some r ∧ triple_unset r
      ∧ new_record d0402 (strip (lit "19:30 Yoga")) = Ok r'
      ∧ body flush_lines flush_state
        = Ok (mkState (S (i flush_state)) (Some d0402)
                      (Some (length (heap flush_state)))
                      (records flush_state ++ [0]) (heap flush_state ++ [r'])).
Proof.
  assert (rounds 2 flush_lines (init []) = Ok flush_state) as H1
    by (vm_compute; reflexivity).
  assert (flush_lines !! i flush_state = Some (lit "19:30 Yoga")) as H2
    by (vm_compute; reflexivity).
  assert (re_time (strip (lit "19:30 Yoga")) = true) as H3
    by (vm_compute; reflexivity).
  assert (truthy d0402 = true) as H4 by (vm_compute; reflexivity).
  split_and!; [exact H1 | exact H2 | exact H3 | reflexivity | exact H4
              | reflexivity |].
  exact (proj2 (emitted_triple_set_or_flushed flush_lines) [] 2 flush_state
           (lit "19:30 Yoga") d0402 0 H1 H2 H3 eq_refl H4 eq_refl).
Defined.

(** C2 as stated fails: the line [Pilates Pilates Studio B (12)], read with
    an open record that has neither event nor studio, leaves the event
    [Pilates Pilates Studio B] and the studio [(12)]. *)
Lemma pilates_studio_b_not_deduplicated :
  rounds 2 pilates_lines (init []) = Ok pilates_state
  ∧ Rec.event (fresh_record []) = [] ∧ Rec.studio (fresh_record []) = []
  ∧ body pilates_lines pilates_state
    = Ok (mkState 3 (Some d0402) (Some 0) []
            [Rec.mk d0402 (lit "18:30") (lit "Pilates Pilates Studio B")
                    (lit "(12)") None None None None])
  ∧ lit "Pilates Pilates Studio B" ≠ lit "Pilates"
  ∧ lit "(12)" ≠ lit "Pilates Studio B (12)".
Proof.
  split_and!; try (vm_compute; reflexivity);
    intros H; vm_compute in H; discriminate H.
Qed.

(** The split of the line of scenario C in [pilates_state]. *)
Lemma capacity_split_last_word_witness :
  (lit "Pilates Pilates Studio B (12)", lit "Pilates Pilates Studio B",
   lit "(12)") ∈ pilates_cases
  ∧ pilates_lines !! i pilates_state = Some (lit "Pilates Pilates Studio B (12)")
  ∧ strip (lit "Pilates Pilates Studio B (12)")
    = lit "Pilates Pilates Studio B (12)"
  ∧ current_date pilates_state = Some d0402 ∧ truthy d0402 = true
  ∧ current_record pilates_state = Some 0
  ∧ heap pilates_state !! 0 = Some (fresh_record [])
  ∧ Rec.event (fresh_record []) = [] ∧ Rec.studio (fresh_record []) = []
  ∧ body pilates_lines pilates_state
    = Ok (mkState (S (i pilates_state)) (Some d0402) (Some 0)
            (records pilates_state)
            (<[0 := Rec.set_studio (lit "(12)")
                      (Rec.set_event (lit "Pilates Pilates Studio B")
                                     (fresh_record []))]>
               (heap pilates_state))).
Proof.
  assert ((lit "Pilates Pilates Studio B (12)", lit "Pilates Pilates Studio B",
           lit "(12)") ∈ pilates_cases) as H0 by apply list_elem_of_here.
  assert (pilates_lines !! i pilates_state
          = Some (lit "Pilates Pilates Studio B (12)")) as H1
    by (vm_compute; reflexivity).
  assert (strip (lit "Pilates Pilates Studio B (12)")
          = lit "Pilates Pilates Studio B (12)") as H2
    by (vm_compute; reflexivity).
  assert (truthy d0402 = true) as H3 by (vm_compute; reflexivity).
  split_and!; [exact H0 | exact H1 | exact H2 | reflexivity | exact H3
              | reflexivity | reflexivity | reflexivity | reflexivity |].
  exact (capacity_split_last_word pilates_lines pilates_state
           (lit "Pilates Pilates Studio B (12)") d0402 0 (fresh_record [])
           _ _ _ H0 H1 H2 eq_refl H3 eq_refl eq_refl eq_refl eq_refl).
Defined.

(** C3 as stated fails: after the header [Tuesday foo], with no date on
    the next line, the current date is [foo], the section is active, and
    the time stamp that follows starts a record. *)
Lemma unparsable_header_text_is_date :
  re_date (lit "foo") = false
  ∧ re_date (strip (lit "18:30 Spin Class")) = false
  ∧ rounds 1 foo_lines (init []) = Ok (mkState 1 (Some (lit "foo")) None [] [])
  ∧ date_active (Some (lit "foo")) = true
  ∧ parse_payroll_pdf foo_lines
    = Ok [Rec.mk (lit "foo") (lit "18:30") (lit "Spin Class") (lit "Studio A")
                 (Some 10%Z) (Some 8%Z) (Some 2%Z) (Some (lit "40,00"))].
Proof. split_and!; vm_compute; reflexivity. Qed.

(** The header [Tuesday] alone, followed by a time stamp. *)
Lemma unparsable_header_keeps_text_witness :
  bare_lines !! i (init []) = Some (lit "Tuesday")
  ∧ split_ws_1 (strip (lit "Tuesday")) = [lit "Tuesday"]
  ∧ lit "Tuesday" ∈ day_names
  ∧ re_date (default [] (head [])) = false
  ∧ (∀ nxt, bare_lines !! S (i (init [])) = Some nxt →
            re_date (strip nxt) = false)
  ∧ (let date_str := default [] (head []) in
     let st1 := mkState (S (i (init []))) (Some date_str) None
                        (records (init [])) (heap (init [])) in
     body bare_lines (init []) = Ok st1
     ∧ date_active (current_date st1) = truthy date_str
     ∧ (date_str = [] → ∀ raw', bare_lines !! i st1 = Some raw' →
          re_time (strip raw') = true →
          body bare_lines st1 = Ok (set_i (S (i st1)) st1))).
Proof.
  assert (bare_lines !! i (init []) = Some (lit "Tuesday")) as H1
    by (vm_compute; reflexivity).
  assert (split_ws_1 (strip (lit "Tuesday")) = [lit "Tuesday"]) as H2
    by (vm_compute; reflexivity).
  assert (lit "Tuesday" ∈ day_names) as H3
    by (apply list_elem_of_further, list_elem_of_here).
  assert (re_date (default [] (head [])) = false) as H4
    by (vm_compute; reflexivity).
  assert (∀ nxt, bare_lines !! S (i (init [])) = Some nxt →
                 re_date (strip nxt) = false) as H5.
  { intros nxt Hn. injection Hn as <-. vm_compute. reflexivity. }
  split_and!; [exact H1 | exact H2 | exact H3 | exact H4 | exact H5 |].
  exact (unparsable_header_keeps_text bare_lines (init []) (lit "Tuesday")
           (lit "Tuesday") [] H1 H2 H3 H4 H5).
Defined.

(** The totals line of [totals_lines], and the time stamp after it. *)
Lemma no_record_outside_section_witness :
  (rounds 1 totals_lines (init []) = Ok (mkState 1 (Some d0402) None [] [])
   ∧ totals_lines !! 1 = Some (lit "Totals: 3")
   ∧ startswith (strip (lit "Totals: 3")) (lit "Totals:") = true
   ∧ body totals_lines (mkState 1 (Some d0402) None [] [])
     = Ok (mkState 2 None None [] []))
  ∧ (rounds 2 totals_lines (init []) = Ok (mkState 2 None None [] [])
     ∧ totals_lines !! 2 = Some (lit "18:30 Spin Class")
     ∧ date_active None = false
     ∧ re_time (strip (lit "18:30 Spin Class")) = true
     ∧ current_record (mkState 2 None None [] []) = None
     ∧ body totals_lines (mkState 2 None None [] [])
       = Ok (set_i 3 (mkState 2 None None [] []))).
Proof.
  assert (rounds 1 totals_lines (init [])
          = Ok (mkState 1 (Some d0402) None [] [])) as H1
    by (vm_compute; reflexivity).
  assert (totals_lines !! 1 = Some (lit "Totals: 3")) as H2
    by (vm_compute; reflexivity).
  assert (startswith (strip (lit "Totals: 3")) (lit "Totals:") = true) as H3
    by (vm_compute; reflexivity).
  assert (rounds 2 totals_lines (init []) = Ok (mkState 2 None None [] []))
    as H4 by (vm_compute; reflexivity).
  assert (totals_lines !! 2 = Some (lit "18:30 Spin Class")) as H5
    by (vm_compute; reflexivity).
  assert (re_time (strip (lit "18:30 Spin Class")) = true) as H6
    by (vm_compute; reflexivity).
  split; split_and!;
    [exact H1 | exact H2 | exact H3 | | exact H4 | exact H5 | reflexivity
    | exact H6 | |].
  - exact (proj1 (no_record_outside_section totals_lines [] 1 _ _ H1 H2) H3).
  - exact (proj1 (proj2 (no_record_outside_section totals_lines [] 2 _ _ H4 H5)
                    eq_refl H6)).
  - exact (proj2 (proj2 (no_record_outside_section totals_lines [] 2 _ _ H4 H5)
                    eq_refl H6)).
Defined.


(** The output before and after the triple of [lookahead_lines]. *)
Lemma output_append_only_witness :
  2 ≤ 3
  ∧ ∃ st st' out out',
      rounds 2 lookahead_lines (init []) = Ok st
      ∧ rounds 3 lookahead_lines (init []) = Ok st'
      ∧ deref_all (heap st) (records st) = Ok out
      ∧ deref_all (heap st') (records st') = Ok out'
      ∧ out `prefix_of` out' ∧ length out ≤ length out'.
Proof.
  assert (2 ≤ 3) as H by (constructor; constructor).
  split; [exact H|].
  exact (output_append_only lookahead_lines [] 2 3 H).
Defined.

(** The first round on [flush_lines]. *)
Lemma scan_terminates_witness :
  i (init []) < length flush_lines
  ∧ body flush_lines (init []) = Ok (mkState 1 (Some d0402) None [] [])
  ∧ i (init []) < i (mkState 1 (Some d0402) None [] []) ≤ length flush_lines.
Proof.
  assert (i (init []) < length flush_lines) as H1
    by (do 3 constructor).
  assert (body flush_lines (init []) = Ok (mkState 1 (Some d0402) None [] []))
    as H2 by (vm_compute; reflexivity).
  split_and!; [exact H1 | exact H2 | |];
    apply (proj1 (scan_terminates flush_lines) (init [])
                 (mkState 1 (Some d0402) None [] []) H1 H2).
Defined.

(** * Further properties of the scan *)

(** ** The three kinds of rounds *)

(** A round on values either leaves the output and keeps or drops the open
    record; or opens a record at a time stamp, after appending the one that
    was open; or passes the line to the open record, and appends that
    record if the line held the triple. *)
Lemma vbody_cases lines v v' :
  view_ok v → v_i v < length lines → vbody lines v = Ok v' →
  (v_out v' = v_out v ∧ (v_cur v' = v_cur v ∨ v_cur v' = None))
  ∨ (∃ raw d r', lines !! v_i v = Some raw ∧ re_time (strip raw) = true
       ∧ v_date v = Some d ∧ truthy d = true
       ∧ new_record d (strip raw) = Ok r'
       ∧ v_cur v' = Some r'
       ∧ v_out v' = v_out v ++ option_list (v_cur v))
  ∨ (∃ raw r r' j' (c : bool), lines !! v_i v = Some raw ∧ v_cur v = Some r
       ∧ record_line lines (strip raw) (S (v_i v)) r = Ok (r', j', c)
       ∧ if c then v_cur v' = None ∧ v_out v' = v_out v ++ [r']
         else v_cur v' = Some r' ∧ v_out v' = v_out v).
Proof.
  intros Hv Hlt. unfold vbody.
  destruct (getitem_lt lines (v_i v) Hlt) as (raw & Hraw & ->). cbn.
  destruct (negb _ || _); [intros; simplify_eq; left; cbn; auto|].
  destruct (is_day_header_ok (split_ws_1 (strip raw))) as [hd ->]. cbn.
  destruct hd.
  { destruct (header_date_ok lines (split_ws_1 (strip raw)) (S (v_i v)) Hlt)
      as (d & j' & -> & _). cbn. intros; simplify_eq; left; cbn; auto. }
  destruct (startswith _ _); [intros; simplify_eq; left; cbn; auto|].
  destruct (v_date v) as [d|] eqn:Hd; cbn;
    [|intros; simplify_eq; left; cbn; auto].
  destruct (truthy d) eqn:Htd; [|intros; simplify_eq; left; cbn; auto].
  destruct (re_time (strip raw)) eqn:Ht.
  { set (v1 := mkView _ _ _ _).
    assert (view_ok v1) as Hv1.
    { destruct Hv as [Hc Hda Ho]. split; cbn; [done | by rewrite Htd | done]. }
    destruct (vopen_ok d (strip raw) v1 Hv1) as (r' & Hr' & _ & ->).
    intros; simplify_eq. right; left. exists raw, d, r'. cbn.
    by split_and!. }
  destruct (v_cur v) as [r|] eqn:Hr; [|intros; simplify_eq; left; cbn; auto].
  unfold vupdate. cbn.
  destruct (record_line_ok lines (strip raw) (S (v_i v)) r Hlt)
    as (r' & j' & c & Hrl & _). rewrite Hrl. cbn.
  intros Hv'. right; right. exists raw, r, r', j', c.
  split_and!; try done. destruct c; by simplify_eq.
Qed.

Lemma vrounds_invariant lines (I : view → Prop) :
  (∀ v v', view_ok v → I v → v_i v < length lines →
           vbody lines v = Ok v' → I v') →
  ∀ k v v', view_ok v → I v → vrounds k lines v = Ok v' → I v'.
Proof.
  intros Hstep k. induction k as [|k IH]; intros v v' Hv HI.
  { cbn. by intros [= <-]. }
  cbn [vrounds]. case_bool_decide as Hlt; [|by intros [= <-]].
  destruct (vbody_ok lines v Hv Hlt) as (v1 & Hb & _ & _ & Hv1).
  rewrite Hb. cbn. apply IH; [done|]. by apply (Hstep v v1).
Qed.

(** A property of the final values of the scan holds of what
    [parse_payroll_pdf] returns. *)
Lemma parse_invariant lines (I : view → Prop) :
  (∀ v v', view_ok v → I v → v_i v < length lines →
           vbody lines v = Ok v' → I v') →
  I (mkView 0 None None []) →
  ∃ v, parse_payroll_pdf lines = Ok (v_out v) ∧ I v ∧ v_i v = length lines.
Proof.
  intros Hstep H0.
  destruct (scan_refines lines []) as (st & _ & _ & Hsc & Hs & _ & Hvr & Hi).
  exists (view_of st). split_and!; [|by eapply (vrounds_invariant lines I)
                                             , Hvr; [|apply (view_ok_init [])|] |done].
  unfold parse_payroll_pdf. rewrite Hsc. cbn.
  by rewrite (view_out_deref [] st).
Qed.

(** ** What a line changes in the open record *)

Lemma rstrip_prefix (s : str) : ∃ w, s = rstrip s ++ w.
Proof.
  unfold rstrip. exists (reverse (takewhile isspace (reverse s))).
  rewrite <- reverse_app, takewhile_dropwhile. by rewrite reverse_involutive.
Qed.

Lemma strip_head (s : str) c : head (strip s) = Some c → isspace c = false.
Proof.
  unfold strip, lstrip. intros Hh.
  destruct (rstrip_prefix (dropwhile isspace s)) as [w Hw].
  destruct (rstrip (dropwhile isspace s)) as [|c' t] eqn:Hr; [done|].
  cbn in Hh. simplify_eq. by eapply dropwhile_head.
Qed.

Lemma strip_strip (s : str) : strip (strip s) = strip s.
Proof.
  destruct (strip s) as [|c t] eqn:Hs; [done|].
  destruct (last (c :: t)) as [d|] eqn:Hl.
  - eapply strip_id; [done | | done |].
    + apply (strip_head s). by rewrite Hs.
    + apply (strip_last s). by rewrite Hs.
  - by rewrite last_cons in Hl; destruct (last t).
Qed.

Lemma py_int_nonneg (s : str) z : py_int s = Ok z → (0 ≤ z)%Z.
Proof.
  unfold py_int. destruct s; [done|].
  destruct (mapM decimal _); [|done]. intros [= <-]. apply N2Z.is_nonneg.
Qed.

Lemma find_total_shape lines rest j r r' j' :
  find_total lines rest j r = Ok (r', j') →
  r' = r ∨ ∃ v, r' = Rec.set_total v r.
Proof.
  assert (∀ (vs : list str) k,
            (if bool_decide (3 ≤ length vs)
             then getitem vs 2 ≫= λ v, Ok (Rec.set_total v r, k)
             else Ok (r, k)) = Ok (r', j') →
            r' = r ∨ ∃ v, r' = Rec.set_total v r) as Hthird.
  { intros vs k. case_bool_decide as H3.
    - destruct (getitem vs 2) as [v| |]; cbn; [|done..].
      intros; simplify_eq. right; by eexists.
    - intros; simplify_eq. by left. }
  unfold find_total. case_bool_decide as Hrest.
  - rewrite for_range_take_value.
    remember (euro_run 3 (drop j lines)) as k eqn:Hk.
    remember ([] ++ (euro_value <$> take k (drop j lines))) as vs eqn:Hvs.
    cbn. case_bool_decide as Hlen.
    + destruct (getitem vs 2) as [v| |]; cbn; [|done..].
      intros; simplify_eq. right; by eexists.
    + intros; simplify_eq. by left.
  - destruct (bool_decide (3 ≤ length (findall_amounts rest))) eqn:H3.
    + intros Hf. apply (Hthird (findall_amounts rest) j). by rewrite H3.
    + apply Hthird.
Qed.

Lemma capacity_split_frame line r r' :
  capacity_split line r = Ok (Some r') →
  Rec.date r' = Rec.date r ∧ Rec.time r' = Rec.time r
  ∧ strip (Rec.studio r') = Rec.studio r' ∧ same_numbers r r'.
Proof.
  unfold capacity_split.
  destruct (rfind line 40%N) as [k|]; [|done].
  destruct (re_capacity (drop k line)); [|done].
  destruct (dedup_ok (split_ws (strip (take k line)))) as (d & ws & ->). cbn.
  intros [= <-]. cbn. split_and!; try done.
  destruct d as [d|]; [destruct (truthy d)|]; apply strip_strip.
Qed.

Lemma triple_branch_frame lines raw idx j r r' j' (c : bool) :
  triple_branch lines (strip raw) idx j r = Ok (r', j', c) →
  Rec.date r' = Rec.date r ∧ Rec.time r' = Rec.time r
  ∧ (Rec.studio r' = Rec.studio r ∨ strip (Rec.studio r') = Rec.studio r')
  ∧ Rec.event r' = Rec.event r
  ∧ (c = true → ∃ b a n, Rec.B r' = Some b ∧ Rec.A r' = Some a
                         ∧ Rec.N r' = Some n
                         ∧ (0 ≤ b)%Z ∧ (0 ≤ a)%Z ∧ (0 ≤ n)%Z).
Proof.
  unfold triple_branch.
  set (r1 := if truthy _ then _ else r).
  assert (Rec.date r1 = Rec.date r ∧ Rec.time r1 = Rec.time r
          ∧ (Rec.studio r1 = Rec.studio r ∨ strip (Rec.studio r1) = Rec.studio r1)
          ∧ Rec.event r1 = Rec.event r) as (Hd & Ht & Hs & He).
  { unfold r1. destruct (truthy _); cbn; split_and!; try done; [|by left].
    right. apply strip_strip. }
  clearbody r1.
  destruct (re_ban _) as [[[[g1 g2] g3] g4]|] eqn:Hm.
  2:{ intros; simplify_eq. by split_and!. }
  cbn [fst snd].
  destruct (py_int g1) as [b| |] eqn:Hb; cbn; [|done..].
  destruct (py_int g2) as [a| |] eqn:Ha; cbn; [|done..].
  destruct (py_int g3) as [n| |] eqn:Hn; cbn; [|done..].
  destruct (find_total lines (strip g4) j (Rec.set_BAN b a n r1))
    as [[r2 j2]| |] eqn:Hf; cbn; [|done..].
  intros; simplify_eq.
  apply py_int_nonneg in Hb, Ha, Hn.
  destruct (find_total_shape _ _ _ _ _ _ Hf) as [->|[v ->]]; cbn;
    (split_and!; try done; intros _; by exists b, a, n).
Qed.

(** A line read while a record is open leaves its date and time; it
    leaves the studio or sets it to a stripped text; and when the record
    is appended to the output, its three numbers are set and are not
    negative. *)
Lemma record_line_frame lines raw j r r' j' (c : bool) :
  record_line lines (strip raw) j r = Ok (r', j', c) →
  Rec.date r' = Rec.date r ∧ Rec.time r' = Rec.time r
  ∧ (Rec.studio r' = Rec.studio r ∨ strip (Rec.studio r') = Rec.studio r')
  ∧ (c = true → ∃ b a n, Rec.B r' = Some b ∧ Rec.A r' = Some a
                         ∧ Rec.N r' = Some n
                         ∧ (0 ≤ b)%Z ∧ (0 ≤ a)%Z ∧ (0 ≤ n)%Z).
Proof.
  unfold record_line.
  destruct (startswith (strip raw) _).
  { intros; simplify_eq. cbn. split_and!; try done. by left. }
  destruct (_ && _ && _ && _).
  { intros; simplify_eq. cbn. split_and!; try done. by left. }
  destruct (if bool_decide (Rec.event r = []) && search_capacity (strip raw)
            then capacity_split (strip raw) r else Ok None)
    as [[r1|]| |] eqn:Hcap; cbn; [| |done..].
  { intros; simplify_eq.
    destruct (_ && _); [|done].
    destruct (capacity_split_frame _ _ _ Hcap) as (? & ? & ? & ?).
    split_and!; try done. by right. }
  destruct (search_triple (strip raw)) as [idx|].
  { intros Htb. destruct (triple_branch_frame _ _ _ _ _ _ _ _ Htb)
      as (? & ? & ? & ? & ?). by split_and!. }
  intros; simplify_eq. cbn. split_and!; try done.
  right. destruct (truthy (Rec.studio r)); apply strip_strip.
Qed.

(** ** Properties that every emitted record has *)

Section RecordInvariant.
Variable P : Rec.t → Prop.
Hypothesis P_open : ∀ d raw r,
  truthy d = true → re_time (strip raw) = true →
  new_record d (strip raw) = Ok r → P r.
Hypothesis P_line : ∀ lines raw j r r' j' c,
  j ≤ length lines → P r →
  record_line lines (strip raw) j r = Ok (r', j', c) → P r'.

(** What holds of a record when it is opened, and is kept by every line
    read while it is open, holds of every record of the output. *)
Lemma emitted_records_have lines :
  ∃ rs, parse_payroll_pdf lines = Ok rs ∧ Forall P rs.
Proof using P_open P_line.
  destruct (parse_invariant lines
              (λ v, Forall P (v_out v) ∧ ∀ r, v_cur v = Some r → P r))
    as (v & Hp & [Ho _] & _).
  - intros v v' Hv [Ho Hc] Hlt Hb.
    destruct (vbody_cases lines v v' Hv Hlt Hb)
      as [[Hout Hcur]|[(raw & d & r' & Hraw & Ht & Hd & Htd & Hn & Hc' & Hout)
                      |(raw & r & r' & j' & c & Hraw & Hr & Hrl & Hres)]].
    + rewrite Hout. split; [done|]. intros r Hr.
      destruct Hcur as [Heq|Heq]; rewrite Heq in Hr; [by apply Hc | done].
    + rewrite Hout, Hc'. split.
      * apply Forall_app. split; [done|].
        destruct (v_cur v) as [r|]; [|constructor].
        constructor; [by apply Hc | constructor].
      * intros r [= <-]. by eapply P_open.
    + assert (P r') as Hr' by (eapply (P_line lines raw); [|by apply Hc|done]; lia).
      destruct c; destruct Hres as [Hc' Hout]; rewrite Hout, Hc'.
      * split; [|done]. apply Forall_app. split; [done|].
        constructor; [done | constructor].
      * split; [done|]. by intros ? [= <-].
  - split; [constructor | done].
  - by exists (v_out v).
Qed.
End RecordInvariant.

Lemma digits_n_takewhile (q : char → bool) n (s r : str) :
  (∀ c, isdigit c = true → q c = true) →
  digits_n n s = Some r → digits_n n (takewhile q s) = Some (takewhile q r).
Proof.
  intros Hq. revert s. induction n as [|n IH]; intros s; cbn.
  { by intros [= <-]. }
  destruct s as [|c s]; [done|].
  destruct (isdigit c) eqn:Hc; [|done]. intros Hs.
  cbn. rewrite (Hq c Hc). cbn. rewrite Hc. by apply IH.
Qed.

Lemma time_tail_takewhile (q : char → bool) (r : str) :
  (∀ c, isdigit c = true → q c = true) → q 58%N = true →
  time_tail r = true → time_tail (takewhile q r) = true.
Proof.
  intros Hq H58. unfold time_tail, matched.
  destruct r as [|c r]; [done|].
  change (expect 58%N (c :: r)) with (if (c =? 58)%N then Some r else None).
  destruct (N.eqb_spec c 58) as [->|]; [|by cbn].
  change (Some r ≫= _) with (digits_n 2 r).
  destruct (digits_n 2 r) as [r'|] eqn:Hr; [|done]. intros _.
  change (takewhile q (58%N :: r))
    with (if q 58%N then 58%N :: takewhile q r else []).
  rewrite H58.
  change (expect 58%N (58%N :: takewhile q r) ≫= _)
    with (digits_n 2 (takewhile q r)).
  by rewrite (digits_n_takewhile q 2 r r' Hq Hr).
Qed.

(** A time stamp holds no space: it is still there in the text before the
    first space. *)
Lemma re_time_first_token (s : str) :
  re_time s = true →
  re_time (takewhile (λ c, negb (c =? 32)%N) s) = true.
Proof.
  set (q := λ c : char, negb (c =? 32)%N).
  assert (∀ c, isdigit c = true → q c = true) as Hq.
  { intros c Hc. unfold q. destruct (N.eqb_spec c 32) as [->|]; [|done].
    by vm_compute in Hc. }
  assert (q 58%N = true) as H58 by done.
  unfold re_time, matched. intros [H|H]%orb_true_iff.
  - destruct (digits_n 2 s) as [r|] eqn:Hr; [|done].
    rewrite (digits_n_takewhile q 2 s r Hq Hr).
    by rewrite (time_tail_takewhile q r Hq H58 H).
  - destruct (digits_n 1 s) as [r|] eqn:Hr; [|done].
    rewrite (digits_n_takewhile q 1 s r Hq Hr).
    rewrite (time_tail_takewhile q r Hq H58 H). apply orb_true_r.
Qed.

Lemma split_char_1_from_first sep acc (s : str) :
  ∃ tl, split_char_1_from sep acc s
        = (reverse acc ++ takewhile (λ c, negb (c =? sep)%N) s) :: tl.
Proof.
  revert acc. induction s as [|c s IH]; intros acc; cbn.
  { exists []. by rewrite app_nil_r. }
  destruct (c =? sep)%N; cbn.
  - exists [s]. by rewrite app_nil_r.
  - destruct (IH (c :: acc)) as [tl ->]. exists tl.
    by rewrite reverse_cons, <- app_assoc.
Qed.

Lemma takewhile_not_elem (sep : char) (s : str) :
  sep ∉ takewhile (λ c, negb (c =? sep)%N) s.
Proof.
  induction s as [|c s IH]; cbn; [apply not_elem_of_nil|].
  destruct (N.eqb_spec c sep) as [->|Hne]; cbn; [apply not_elem_of_nil|].
  apply not_elem_of_cons. split; [done | exact IH].
Qed.

(** The time of a new record is the text of the line before its first
    space. *)
Lemma new_record_time d line r :
  new_record d line = Ok r →
  Rec.date r = d ∧ Rec.studio r = [] ∧ triple_unset r
  ∧ Rec.time r = takewhile (λ c, negb (c =? 32)%N) line.
Proof.
  unfold new_record, split_char_1.
  destruct (split_char_1_from_first 32%N [] line) as [tl Htl].
  rewrite Htl, getitem_head. cbn.
  destruct (if bool_decide _ then _ else _) as [ev| |]; cbn; [|done..].
  by intros [= <-].
Qed.

(** X1: every record that [parse_payroll_pdf] returns has a date that is
    not empty, and its time is the text before the first space of the line
    that opened it: it begins with a time stamp and holds no space. *)
Theorem emitted_date_and_time (lines : list str) :
  ∃ rs, parse_payroll_pdf lines = Ok rs
        ∧ Forall (λ r, truthy (Rec.date r) = true
                       ∧ re_time (Rec.time r) = true
                       ∧ 32%N ∉ Rec.time r) rs.
Proof.
  apply emitted_records_have.
  - intros d raw r Hd Ht Hr.
    destruct (new_record_time _ _ _ Hr) as (-> & _ & _ & ->).
    split_and!; [done | by apply re_time_first_token
                | apply takewhile_not_elem].
  - intros lns raw j r r' j' c _ (Hd & Ht & Hsp) Hrl.
    destruct (record_line_frame _ _ _ _ _ _ _ Hrl) as (-> & -> & _).
    by split_and!.
Qed.

(** X2: the bookings, attended and no-shows of every record that
    [parse_payroll_pdf] returns are not negative, when they are set. *)
Theorem emitted_numbers_not_negative (lines : list str) :
  ∃ rs, parse_payroll_pdf lines = Ok rs
        ∧ Forall (λ r, ∀ z, Rec.B r = Some z ∨ Rec.A r = Some z
                            ∨ Rec.N r = Some z → (0 ≤ z)%Z) rs.
Proof.
  apply emitted_records_have.
  - intros d raw r _ _ Hr z.
    destruct (new_record_time _ _ _ Hr) as (_ & _ & (HB & HA & HN & _) & _).
    rewrite HB, HA, HN. by intros [|[|]].
  - intros lns raw j r r' j' c Hj HP Hrl z.
    destruct (record_line_ok lns (strip raw) j r Hj) as (r2 & j2 & c2 & Hrl2 & _ & Hc).
    rewrite Hrl in Hrl2. simplify_eq.
    destruct c2.
    + destruct (record_line_frame _ _ _ _ _ _ _ Hrl)
        as (_ & _ & _ & (b & a & n & -> & -> & -> & ? & ? & ?)); [done|].
      intros [|[|]]; by simplify_eq.
    + destruct Hc as (-> & -> & -> & _). apply HP.
Qed.

(** X3: the studio of every record that [parse_payroll_pdf] returns is
    trimmed: it neither begins nor ends with a blank, so that stripping it
    again changes nothing. *)
Theorem emitted_studio_trimmed (lines : list str) :
  ∃ rs, parse_payroll_pdf lines = Ok rs
        ∧ Forall (λ r, strip (Rec.studio r) = Rec.studio r) rs.
Proof.
  apply emitted_records_have.
  - intros d raw r _ _ Hr.
    destruct (new_record_time _ _ _ Hr) as (_ & -> & _). by vm_compute.
  - intros lns raw j r r' j' c _ HP Hrl.
    destruct (record_line_frame _ _ _ _ _ _ _ Hrl) as (_ & _ & [->|Hs] & _);
      done.
Qed.

(** ** Records and the lines that open them *)

Lemma take_extend {X} (l : list X) n n' x :
  n < n' → l !! n = Some x → ∃ rest, take n' l = take n l ++ x :: rest.
Proof.
  intros Hn Hx. exists (drop (S n) (take n' l)).
  rewrite <- (take_drop n (take n' l)) at 1.
  rewrite take_take, Nat.min_l by lia. f_equal.
  apply drop_S. by rewrite lookup_take_lt.
Qed.

Lemma time_stamps_app l1 l2 :
  time_stamps (l1 ++ l2) = time_stamps l1 ++ time_stamps l2.
Proof. apply omap_app. Qed.

Lemma time_stamps_open raw :
  re_time (strip raw) = true →
  time_stamps [raw] = [takewhile (λ c, negb (c =? 32)%N) (strip raw)].
Proof.
  intros Ht. unfold time_stamps. cbn. rewrite Ht. unfold split_char_1.
  destruct (split_char_1_from_first 32%N [] (strip raw)) as [tl ->]. done.
Qed.

(** X4: the times of the records that [parse_payroll_pdf] returns are,
    in the same order, time stamps of the lines: the output never holds
    more records than the lines hold time stamps, and never reorders
    them. *)
Theorem emitted_times_in_order (lines : list str) :
  ∃ rs, parse_payroll_pdf lines = Ok rs
        ∧ (Rec.time <$> rs) `sublist_of` time_stamps lines
        ∧ length rs ≤ length (time_stamps lines).
Proof.
  destruct (parse_invariant lines
    (λ v, ((Rec.time <$> v_out v) ++ option_list (Rec.time <$> v_cur v))
            `sublist_of` time_stamps (take (v_i v) lines)))
    as (v & Hp & HI & Hi).
  - intros v v' Hv HI Hlt Hb.
    destruct (vbody_ok lines v Hv Hlt) as (v2 & Hb2 & Hcur & _).
    rewrite Hb in Hb2. simplify_eq.
    destruct (getitem_lt lines (v_i v) Hlt) as (raw0 & Hraw0 & _).
    destruct (take_extend lines (v_i v) (v_i v2) raw0 ltac:(lia) Hraw0)
      as [rest Hrest].
    rewrite Hrest, time_stamps_app.
    change (raw0 :: rest) with ([raw0] ++ rest). rewrite time_stamps_app.
    destruct (vbody_cases lines v v2 Hv Hlt Hb)
      as [[Hout Hc]|[(raw & d & r' & Hraw & Ht & Hd & Htd & Hn & Hc' & Hout)
                    |(raw & r & r' & j' & c & Hraw & Hr & Hrl & Hres)]].
    + rewrite Hout. apply sublist_inserts_r. etrans; [|exact HI].
      destruct Hc as [->| ->]; [done|]. cbn. rewrite app_nil_r.
      by apply sublist_inserts_r.
    + assert (raw = raw0) as -> by congruence.
      rewrite (time_stamps_open raw0 Ht).
      rewrite Hout, Hc', fmap_app. cbn [option_list fmap option_fmap option_map].
      destruct (new_record_time _ _ _ Hn) as (_ & _ & _ & ->).
      rewrite <- app_assoc. rewrite (app_assoc _ [_] _).
      apply sublist_inserts_r.
      assert (Rec.time <$> option_list (v_cur v)
              = option_list (Rec.time <$> v_cur v)) as -> by by destruct (v_cur v).
      rewrite app_assoc. apply sublist_app; [exact HI | done].
    + destruct (record_line_frame _ _ _ _ _ _ _ Hrl) as (_ & Htime & _).
      rewrite Hr in HI. cbn [option_list fmap option_fmap option_map] in HI.
      rewrite <- Htime in HI.
      apply sublist_inserts_r.
      destruct c; destruct Hres as [-> ->]; cbn.
      * rewrite fmap_app. cbn. by rewrite app_nil_r.
      * done.
  - cbn. apply sublist_nil_l.
  - exists (v_out v). rewrite Hi, firstn_all in HI.
    assert ((Rec.time <$> v_out v) `sublist_of` time_stamps lines) as Hsub.
    { etrans; [|exact HI]. by apply sublist_inserts_r. }
    split_and!; [done | done |].
    apply sublist_length in Hsub. by rewrite length_fmap in Hsub.
Qed.

(** X5: when no line has the name of a day as its first word,
    [parse_payroll_pdf] returns no record at all: without a header no
    section opens, whatever time stamps and triples the lines hold. *)
Theorem no_header_no_records (lines : list str) :
  Forall (λ l, is_day_header (split_ws_1 (strip l)) = Ok false) lines →
  parse_payroll_pdf lines = Ok [].
Proof.
  intros Hall.
  destruct (parse_invariant lines
    (λ v, v_date v = None ∧ v_cur v = None ∧ v_out v = []))
    as (v & Hp & (_ & _ & Ho) & _).
  - intros v v' _ (Hd & Hc & Ho) Hlt. unfold vbody.
    destruct (getitem_lt lines (v_i v) Hlt) as (raw & Hraw & ->). cbn.
    rewrite Forall_lookup in Hall. rewrite (Hall _ _ Hraw). cbn.
    rewrite Hd, Hc, Ho. cbn.
    destruct (negb _ || _); [by intros [= <-]|].
    destruct (startswith _ _); by intros [= <-].
  - done.
  - by rewrite Hp, Ho.
Qed.

(** Lines with a time stamp and a triple, but no header. *)
Lemma no_header_no_records_witness :
  Forall (λ l, is_day_header (split_ws_1 (strip l)) = Ok false)
         [lit "18:30 Spin Class"; lit "Studio A 10/8/2 5,00 € 10,00 € 40,00 €"]
  ∧ parse_payroll_pdf
      [lit "18:30 Spin Class"; lit "Studio A 10/8/2 5,00 € 10,00 € 40,00 €"]
    = Ok [].
Proof.
  assert (Forall (λ l, is_day_header (split_ws_1 (strip l)) = Ok false)
            [lit "18:30 Spin Class";
             lit "Studio A 10/8/2 5,00 € 10,00 € 40,00 €"]) as H.
  { repeat (constructor; [vm_compute; reflexivity|]). constructor. }
  split; [exact H|]. exact (no_header_no_records _ H).
Defined.

(** ** The header rule and the parenthesis rule *)

Lemma header_date_same_line lines (w : str) (tl : list str) j :
  re_date (default [] (head tl)) = true →
  header_date lines (w :: tl) j = Ok (default [] (head tl), j).
Proof.
  intros Hd. unfold header_date.
  assert ((if bool_decide (1 < length (w :: tl))
           then getitem (w :: tl) 1 else Ok []) = Ok (default [] (head tl)))
    as ->.
  { destruct tl as [|t tl']; [done|].
    rewrite bool_decide_eq_true_2 by (cbn; lia). by apply getitem_1. }
  rewrite bind_Ok_l, Hd.
  destruct (default [] (head tl)) as [|c s] eqn:Hs; [by vm_compute in Hd|].
  done.
Qed.

Lemma header_date_next_line lines (w : str) (tl : list str) j nxt :
  re_date (default [] (head tl)) = false →
  lines !! j = Some nxt → re_date (strip nxt) = true →
  header_date lines (w :: tl) j = Ok (strip nxt, S j).
Proof.
  intros Hd Hn Hnd. unfold header_date.
  assert ((if bool_decide (1 < length (w :: tl))
           then getitem (w :: tl) 1 else Ok []) = Ok (default [] (head tl)))
    as ->.
  { destruct tl as [|t tl']; [done|].
    rewrite bool_decide_eq_true_2 by (cbn; lia). by apply getitem_1. }
  rewrite bind_Ok_l, Hd, orb_true_r.
  rewrite bool_decide_eq_true_2 by by eapply lookup_lt_Some.
  rewrite (getitem_lookup _ _ _ Hn), bind_Ok_l, Hnd.
  by rewrite bind_Ok_l.
Qed.

Lemma body_header lines st raw (w : str) (tl : list str) d j :
  lines !! i st = Some raw →
  split_ws_1 (strip raw) = w :: tl → w ∈ day_names →
  header_date lines (w :: tl) (S (i st)) = Ok (d, j) →
  body lines st = Ok (mkState j (Some d) None (records st) (heap st)).
Proof.
  intros Hraw Hsp Hw Hhd.
  destruct (header_line_dispatch _ _ _ Hsp Hw) as (Ht & Hsk & Hh).
  unfold body. rewrite (getitem_lookup _ _ _ Hraw), bind_Ok_l.
  cbn zeta. rewrite Ht, Hsk, Hh. cbn [negb orb]. rewrite bind_Ok_l.
  rewrite Hsp. cbn [set_i i]. rewrite Hhd. done.
Qed.

(** X6: a line whose first word is the name of a day and whose rest is a
    date [D[D].MM.YYYY] starts a section with that date: the cursor moves
    by one line, the open record is dropped and the output is left. *)
Theorem header_with_date (lines : list str) st raw (w : str) (tl : list str) :
  lines !! i st = Some raw →
  split_ws_1 (strip raw) = w :: tl → w ∈ day_names →
  re_date (default [] (head tl)) = true →
  body lines st
  = Ok (mkState (S (i st)) (Some (default [] (head tl))) None
                (records st) (heap st)).
Proof.
  intros Hraw Hsp Hw Hd.
  apply (body_header lines st raw w tl); try done.
  by apply header_date_same_line.
Qed.

(** X7: when the rest of a header line is no date and the next line,
    stripped, is one, that next line is the date of the section and is
    consumed with the header: the cursor moves by two lines, whatever text
    stood after the name of the day; the open record is dropped and the
    output is left. *)
Theorem header_date_on_next_line (lines : list str) st raw (w : str)
    (tl : list str) nxt :
  lines !! i st = Some raw →
  split_ws_1 (strip raw) = w :: tl → w ∈ day_names →
  re_date (default [] (head tl)) = false →
  lines !! S (i st) = Some nxt → re_date (strip nxt) = true →
  body lines st
  = Ok (mkState (S (S (i st))) (Some (strip nxt)) None (records st) (heap st)).
Proof.
  intros Hraw Hsp Hw Hd Hn Hnd.
  apply (body_header lines st raw w tl); try done.
  by apply header_date_next_line.
Qed.

Lemma skip_lines_no_paren (l : str) :
  l ∈ skip_lines → startswith l [40%N] = false.
Proof.
  unfold skip_lines. intros H.
  repeat (apply elem_of_cons in H as [->|H]; [by vm_compute|]).
  by apply elem_of_nil in H.
Qed.

(** A line that begins with a parenthesis falls under none of the rules
    that come before the rules of the open record. *)
Lemma paren_line_dispatch (line : str) :
  startswith line [40%N] = true →
  truthy line = true ∧ bool_decide (line ∈ skip_lines) = false
  ∧ is_day_header (split_ws_1 line) = Ok false
  ∧ startswith line (lit "Totals:") = false
  ∧ re_time line = false.
Proof.
  intros Hs. pose proof Hs as [t ->]%startswith_app.
  split_and!.
  - done.
  - apply bool_decide_eq_false_2. intros Hin.
    apply skip_lines_no_paren in Hin. congruence.
  - apply header_false_prefix; [done | |].
    + by repeat (constructor; [by vm_compute|]).
    + unfold day_names. by repeat (constructor; [by vm_compute|]).
  - destruct (startswith ([40%N] ++ t) (lit "Totals:")) eqn:Hto; [|done].
    apply startswith_app in Hto as [u Hu]. vm_compute in Hu. discriminate Hu.
  - destruct (re_time ([40%N] ++ t)) eqn:Hti; [|done].
    apply re_time_head in Hti as (c & s & Hc & Hd).
    injection Hc as <- _. by vm_compute in Hd.
Qed.

(** X8: in a section with a record open, a line that begins with an
    opening parenthesis is always event text: it is appended to the event
    after one space, also when the event was empty and also when the line
    holds a triple or a capacity marker; the record stays open and nothing
    is appended to the output. *)
Theorem paren_line_joins_event (lines : list str) st raw d l r :
  lines !! i st = Some raw → startswith (strip raw) [40%N] = true →
  current_date st = Some d → truthy d = true →
  current_record st = Some l → heap st !! l = Some r →
  body lines st
  = Ok (mkState (S (i st)) (Some d) (Some l) (records st)
          (<[l := Rec.set_event (Rec.event r ++ space ++ strip raw) r]>
             (heap st))).
Proof.
  intros Hraw Hp Hd Htd Hl Hlr.
  destruct (paren_line_dispatch _ Hp) as (Ht & Hsk & Hh & Hto & Hti).
  rewrite (body_dispatch lines st raw Hraw Ht Hsk Hh Hto).
  rewrite Hd, Hl, Hti. change (date_active (Some d)) with (truthy d).
  rewrite Htd.
  erewrite update_record_eq; [|exact Hlr|].
  2:{ unfold record_line. rewrite Hp. reflexivity. }
  cbn. by rewrite Hd, Hl.
Qed.

(** The header of [flush_lines], with its date on the line. *)
Lemma header_with_date_witness :
  flush_lines !! i (init []) = Some (lit "Tuesday 04.02.2025")
  ∧ split_ws_1 (strip (lit "Tuesday 04.02.2025"))
    = [lit "Tuesday"; lit "04.02.2025"]
  ∧ lit "Tuesday" ∈ day_names
  ∧ re_date (default [] (head [lit "04.02.2025"])) = true
  ∧ body flush_lines (init [])
    = Ok (mkState (S (i (init [])))
                  (Some (default [] (head [lit "04.02.2025"]))) None
                  (records (init [])) (heap (init []))).
Proof.
  assert (flush_lines !! i (init []) = Some (lit "Tuesday 04.02.2025")) as H1
    by (vm_compute; reflexivity).
  assert (split_ws_1 (strip (lit "Tuesday 04.02.2025"))
          = [lit "Tuesday"; lit "04.02.2025"]) as H2
    by (vm_compute; reflexivity).
  assert (lit "Tuesday" ∈ day_names) as H3
    by (apply list_elem_of_further, list_elem_of_here).
  assert (re_date (default [] (head [lit "04.02.2025"])) = true) as H4
    by (vm_compute; reflexivity).
  split_and!; [exact H1 | exact H2 | exact H3 | exact H4 |].
  exact (header_with_date flush_lines (init []) _ _ _ H1 H2 H3 H4).
Defined.

(** A header with other text after the day, and the date on the next
    line between blanks. *)
Lemma header_date_on_next_line_witness :
  [lit "Wednesday foo"; lit " 05.02.2025 "] !! i (init [])
  = Some (lit "Wednesday foo")
  ∧ split_ws_1 (strip (lit "Wednesday foo")) = [lit "Wednesday"; lit "foo"]
  ∧ lit "Wednesday" ∈ day_names
  ∧ re_date (default [] (head [lit "foo"])) = false
  ∧ [lit "Wednesday foo"; lit " 05.02.2025 "] !! S (i (init []))
    = Some (lit " 05.02.2025 ")
  ∧ re_date (strip (lit " 05.02.2025 ")) = true
  ∧ body [lit "Wednesday foo"; lit " 05.02.2025 "] (init [])
    = Ok (mkState (S (S (i (init [])))) (Some (strip (lit " 05.02.2025 ")))
                  None (records (init [])) (heap (init []))).
Proof.
  assert ([lit "Wednesday foo"; lit " 05.02.2025 "] !! i (init [])
          = Some (lit "Wednesday foo")) as H1 by reflexivity.
  assert (split_ws_1 (strip (lit "Wednesday foo"))
          = [lit "Wednesday"; lit "foo"]) as H2 by (vm_compute; reflexivity).
  assert (lit "Wednesday" ∈ day_names) as H3
    by (do 2 apply list_elem_of_further; apply list_elem_of_here).
  assert (re_date (default [] (head [lit "foo"])) = false) as H4
    by (vm_compute; reflexivity).
  assert ([lit "Wednesday foo"; lit " 05.02.2025 "] !! S (i (init []))
          = Some (lit " 05.02.2025 ")) as H5 by reflexivity.
  assert (re_date (strip (lit " 05.02.2025 ")) = true) as H6
    by (vm_compute; reflexivity).
  split_and!; [exact H1 | exact H2 | exact H3 | exact H4 | exact H5
              | exact H6 |].
  exact (header_date_on_next_line _ (init []) _ _ _ _ H1 H2 H3 H4 H5 H6).
Defined.

(** A line in parentheses that holds a triple, read while the event is
    empty. *)
Lemma paren_line_joins_event_witness :
  [lit "Tuesday 04.02.2025"; lit "18:30"; lit "(x) 1/2/3"] !! i pilates_state
  = Some (lit "(x) 1/2/3")
  ∧ startswith (strip (lit "(x) 1/2/3")) [40%N] = true
  ∧ current_date pilates_state = Some d0402 ∧ truthy d0402 = true
  ∧ current_record pilates_state = Some 0
  ∧ heap pilates_state !! 0 = Some (fresh_record [])
  ∧ body [lit "Tuesday 04.02.2025"; lit "18:30"; lit "(x) 1/2/3"]
         pilates_state
    = Ok (mkState (S (i pilates_state)) (Some d0402) (Some 0)
            (records pilates_state)
            (<[0 := Rec.set_event
                      (Rec.event (fresh_record []) ++ space
                       ++ strip (lit "(x) 1/2/3")) (fresh_record [])]>
               (heap pilates_state))).
Proof.
  assert ([lit "Tuesday 04.02.2025"; lit "18:30"; lit "(x) 1/2/3"]
            !! i pilates_state = Some (lit "(x) 1/2/3")) as H1 by reflexivity.
  assert (startswith (strip (lit "(x) 1/2/3")) [40%N] = true) as H2
    by (vm_compute; reflexivity).
  assert (truthy d0402 = true) as H3 by (vm_compute; reflexivity).
  split_and!; [exact H1 | exact H2 | reflexivity | exact H3 | reflexivity
              | reflexivity |].
  exact (paren_line_joins_event _ pilates_state _ d0402 0 (fresh_record [])
           H1 H2 eq_refl H3 eq_refl eq_refl).
Defined.

(** ** What the renderers print reads back *)

Lemma uint_digits_value (u : Decimal.uint) :
  ∃ ds, mapM decimal (uint_digits u) = Some ds
    ∧ (∀ p, foldl (λ acc d, 10 * acc + d)%N (Npos p) ds
            = Npos (Pos.of_uint_acc u p))
    ∧ foldl (λ acc d, 10 * acc + d)%N 0%N ds = Pos.of_uint u
    ∧ Forall (λ c, (48 ≤ c ≤ 57)%N) (uint_digits u).
Proof.
  induction u as [|u (ds & Hm & Hp & H0 & Hr)|u (ds & Hm & Hp & H0 & Hr)
                 |u (ds & Hm & Hp & H0 & Hr)|u (ds & Hm & Hp & H0 & Hr)
                 |u (ds & Hm & Hp & H0 & Hr)|u (ds & Hm & Hp & H0 & Hr)
                 |u (ds & Hm & Hp & H0 & Hr)|u (ds & Hm & Hp & H0 & Hr)
                 |u (ds & Hm & Hp & H0 & Hr)|u (ds & Hm & Hp & H0 & Hr)].
  { exists []. split_and!; first [done | constructor]. }
  all: match goal with
       | |- context [uint_digits (?D _)] =>
           let c := eval vm_compute in (hd 0%N (uint_digits (D Decimal.Nil))) in
           let k := eval vm_compute in (c - 48)%N in
           exists (k :: ds); split_and!;
           [ cbn [uint_digits]; apply mapM_Some; constructor;
             [by vm_compute | by apply mapM_Some]
           | intros p; cbn [foldl Pos.of_uint_acc]; rewrite <- Hp; f_equal; lia
           | cbn [foldl Pos.of_uint]; first [exact H0 | rewrite <- Hp; f_equal; lia]
           | cbn [uint_digits]; constructor; [lia | exact Hr] ]
       end.
Qed.

Lemma py_int_uint_digits (u : Decimal.uint) :
  u ≠ Decimal.Nil → py_int (uint_digits u) = Ok (Z.of_N (Pos.of_uint u)).
Proof.
  intros Hu. destruct (uint_digits_value u) as (ds & Hm & _ & H0 & _).
  unfold py_int. rewrite Hm, H0. by destruct u.
Qed.

(** [int(str(z)) == z] for an integer that is not negative. *)
Lemma py_int_py_str (z : Z) : (0 ≤ z)%Z → py_int (py_str_int z) = Ok z.
Proof.
  intros Hz. destruct z as [|p|p]; [by vm_compute | | lia].
  unfold py_str_int. cbn [Z.to_int].
  rewrite py_int_uint_digits by apply Unsigned.to_uint_nonnil.
  by rewrite Unsigned.of_to.
Qed.

Lemma py_str_no_slash (z : Z) : (0 ≤ z)%Z → 47%N ∉ py_str_int z.
Proof.
  intros Hz. unfold py_str_int.
  destruct (Z.to_int z) as [u|u] eqn:Hu; [|by destruct z].
  destruct (uint_digits_value u) as (_ & _ & _ & _ & Hr).
  intros Hin. rewrite Forall_forall in Hr. specialize (Hr _ Hin). cbn in Hr. lia.
Qed.

Lemma split_char_from_none sep acc (s : str) :
  sep ∉ s → split_char_from sep acc s = [reverse acc ++ s].
Proof.
  revert acc. induction s as [|c s IH]; intros acc Hs; cbn.
  { by rewrite app_nil_r. }
  apply not_elem_of_cons in Hs as [Hc Hs].
  destruct (N.eqb_spec c sep) as [->|_]; [done|].
  rewrite IH by done. by rewrite reverse_cons, <- app_assoc.
Qed.

Lemma split_char_from_one sep acc (s t : str) :
  sep ∉ s → sep ∉ t →
  split_char_from sep acc (s ++ sep :: t) = [reverse acc ++ s; t].
Proof.
  revert acc. induction s as [|c s IH]; intros acc Hs Ht; cbn.
  { rewrite N.eqb_refl, app_nil_r. f_equal.
    by rewrite (split_char_from_none sep [] t Ht). }
  apply not_elem_of_cons in Hs as [Hc Hs].
  destruct (N.eqb_spec c sep) as [->|_]; [done|].
  rewrite (IH (c :: acc)) by done. by rewrite reverse_cons, <- app_assoc.
Qed.



(** The numbers of a record of the output: none, or the three of them. *)
Lemma emitted_numbers (lines : list str) :
  ∃ rs, parse_payroll_pdf lines = Ok rs
        ∧ Forall (λ r, triple_unset r
                       ∨ ∃ b a n, Rec.B r = Some b ∧ Rec.A r = Some a
                                  ∧ Rec.N r = Some n
                                  ∧ (0 ≤ b)%Z ∧ (0 ≤ a)%Z ∧ (0 ≤ n)%Z) rs.
Proof.
  apply emitted_records_have.
  - intros d raw r _ _ Hr.
    destruct (new_record_time _ _ _ Hr) as (_ & _ & Hu & _). by left.
  - intros lns raw j r r' j' c Hj HP Hrl.
    destruct (record_line_ok lns (strip raw) j r Hj)
      as (r2 & j2 & c2 & Hrl2 & _ & Hc).
    rewrite Hrl in Hrl2. simplify_eq.
    destruct c2.
    + right.
      by destruct (record_line_frame _ _ _ _ _ _ _ Hrl) as (_ & _ & _ & Hn);
        apply Hn.
    + destruct Hc as (HB & HA & HN & HT).
      destruct HP as [(? & ? & ? & ?)|(b & a & n & ? & ? & ? & ?)].
      * left. unfold triple_unset. split_and!; congruence.
      * right. exists b, a, n. split_and!; [congruence.. | tauto | tauto | tauto].
Qed.

(** X10: the cells of the records of the output.  For every record that
    [parse_payroll_pdf] returns, the document table has either an empty
    attendance cell and the text [None] in the no-shows cell (a record
    flushed without its numbers), or an attendance cell of two parts around
    one slash that read back as the attended and the bookings of the record,
    and a no-shows cell that reads back as its no-shows. *)
Theorem emitted_cells (lines : list str) :
  ∃ rs, parse_payroll_pdf lines = Ok rs
        ∧ Forall (λ r,
            (triple_unset r ∧ attendance r = []
             ∧ no_shows_text r = lit "None")
            ∨ (∃ sa sb a b n,
                 split_char 47%N (attendance r) = [sa; sb]
                 ∧ py_int sa = Ok a ∧ Rec.A r = Some a
                 ∧ py_int sb = Ok b ∧ Rec.B r = Some b
                 ∧ py_int (no_shows_text r) = Ok n ∧ Rec.N r = Some n)) rs.
Proof.
  destruct (emitted_numbers lines) as (rs & Hp & Hrs).
  exists rs. split; [done|].
  eapply Forall_impl; [exact Hrs|]. intros r Hr. cbn beta in Hr.
  destruct Hr as [Hu|(b & a & n & HB & HA & HN & Hb & Ha & Hn)].
  - left. destruct Hu as (HB & HA & HN & HT).
    unfold attendance, no_shows_text. rewrite HA, HN.
    by split_and!.
  - right. exists (py_str_int a), (py_str_int b), a, b, n.
    unfold attendance, no_shows_text, split_char. rewrite HA, HB, HN.
    split_and!; try done; try by apply py_int_py_str.
    exact (split_char_from_one 47%N [] _ _ (py_str_no_slash a Ha)
             (py_str_no_slash b Hb)).
Qed.

(** ** The capacity split keeps the words of the line *)

Lemma split_ws_from_word cur (w s : str) :
  Forall (λ c, isspace c = false) w →
  split_ws_from cur (w ++ s) = split_ws_from (reverse w ++ cur) s.
Proof.
  revert cur. induction w as [|c w IH]; intros cur Hw; [done|].
  inversion_clear Hw as [|?? Hc Hw']. cbn [app split_ws_from]. rewrite Hc.
  rewrite IH by done. by rewrite reverse_cons, <- app_assoc.
Qed.

Lemma split_ws_from_spaces cur (w : str) :
  Forall (λ c, isspace c = true) w →
  split_ws_from cur w = match cur with [] => [] | _ => [reverse cur] end.
Proof.
  revert cur. induction w as [|c w IH]; intros cur Hw; [done|].
  inversion_clear Hw as [|?? Hc Hw']. cbn [split_ws_from]. rewrite Hc.
  destruct cur; by rewrite IH.
Qed.

Lemma split_ws_from_trail cur (s w : str) :
  Forall (λ c, isspace c = true) w →
  split_ws_from cur (s ++ w) = split_ws_from cur s.
Proof.
  intros Hw. revert cur. induction s as [|c s IH]; intros cur.
  - rewrite app_nil_l. by rewrite split_ws_from_spaces.
  - cbn [app split_ws_from]. destruct (isspace c); [destruct cur|]; by rewrite IH.
Qed.

Lemma split_ws_lstrip (s : str) : split_ws (lstrip s) = split_ws s.
Proof.
  unfold split_ws, lstrip. induction s as [|c s IH]; [done|].
  cbn [dropwhile split_ws_from]. destruct (isspace c) eqn:Hc; [done|].
  cbn [split_ws_from]. by rewrite Hc.
Qed.

Lemma takewhile_all (p : char → bool) (s : str) :
  Forall (λ c, p c = true) (takewhile p s).
Proof.
  induction s as [|c s IH]; cbn; [constructor|].
  destruct (p c) eqn:Hc; by constructor.
Qed.

(** [s.strip().split() == s.split()] *)
Lemma split_ws_strip (s : str) : split_ws (strip s) = split_ws s.
Proof.
  rewrite <- (split_ws_lstrip s). unfold strip, split_ws.
  set (t := lstrip s).
  assert (t = rstrip t ++ reverse (takewhile isspace (reverse t))) as Ht.
  { unfold rstrip.
    rewrite <- reverse_app, takewhile_dropwhile. by rewrite reverse_involutive. }
  rewrite Ht at 2. symmetry. apply split_ws_from_trail.
  apply Forall_reverse, takewhile_all.
Qed.

Lemma reverse_not_nil {X} (l : list X) : l ≠ [] → reverse l ≠ [].
Proof.
  intros Hl Hr. apply Hl. apply (f_equal reverse) in Hr.
  by rewrite reverse_involutive in Hr.
Qed.

(** The words of [s.split()] are words. *)
Lemma split_ws_from_words cur (s : str) :
  Forall (λ c, isspace c = false) cur →
  Forall is_word (split_ws_from cur s).
Proof.
  revert cur. induction s as [|c s IH]; intros cur Hcur; cbn [split_ws_from].
  - destruct cur as [|x cur]; constructor; [|constructor].
    split; [by apply reverse_not_nil | by apply Forall_reverse].
  - destruct (isspace c) eqn:Hc.
    + destruct cur as [|x cur]; [by apply IH|]. constructor; [|by apply IH].
      split; [by apply reverse_not_nil | by apply Forall_reverse].
    + apply IH. by constructor.
Qed.

Lemma split_ws_words (s : str) : Forall is_word (split_ws s).
Proof. apply split_ws_from_words. constructor. Qed.

Lemma split_ws_single (w : str) : is_word w → split_ws w = [w].
Proof.
  intros [Hne Hw]. unfold split_ws. rewrite <- (app_nil_r w) at 1.
  rewrite split_ws_from_word by done. rewrite app_nil_r. cbn [split_ws_from].
  destruct (reverse w) eqn:Hr; [by apply reverse_not_nil in Hr|].
  by rewrite <- Hr, reverse_involutive.
Qed.

Lemma split_ws_word_space (w s : str) :
  is_word w → split_ws (w ++ 32%N :: s) = w :: split_ws s.
Proof.
  intros [Hne Hw]. unfold split_ws. rewrite split_ws_from_word by done.
  rewrite app_nil_r. cbn [split_ws_from].
  replace (isspace 32%N) with true by (by vm_compute).
  destruct (reverse w) eqn:Hr; [by apply reverse_not_nil in Hr|].
  by rewrite <- Hr, reverse_involutive.
Qed.

(** [" ".join(ws).split() == ws] for a list of words. *)
Lemma split_ws_join (ws : list str) :
  Forall is_word ws → split_ws (join space ws) = ws.
Proof.
  induction ws as [|w ws IH]; intros Hws; [done|].
  inversion_clear Hws as [|?? Hw Hws'].
  destruct ws as [|w' ws]; [by apply split_ws_single|].
  change (join space (w :: w' :: ws)) with (w ++ 32%N :: join space (w' :: ws)).
  rewrite split_ws_word_space by done. by rewrite IH.
Qed.

Lemma getitem_last {X} (l : list X) x : getitem (l ++ [x]) (-1) = Ok x.
Proof.
  unfold getitem. rewrite length_app. cbn [length].
  destruct (Z.ltb_spec (-1) 0) as [_|?]; [|lia].
  destruct (Z.ltb_spec (Z.of_nat (length l + 1) + -1) 0) as [?|_]; [lia|].
  destruct (Z.leb_spec (Z.of_nat (length l + 1))
                       (Z.of_nat (length l + 1) + -1)) as [?|_]; [lia|].
  cbn [orb].
  replace (Z.to_nat (Z.of_nat (length l + 1) + -1)) with (length l) by lia.
  by rewrite list_lookup_middle.
Qed.

Lemma but_last_snoc {X} (l : list X) x : but_last (l ++ [x]) = l.
Proof.
  unfold but_last. rewrite length_app. cbn [length].
  replace (length l + 1 - 1) with (length l) by lia.
  by rewrite take_app_length.
Qed.

(** The word that [dedup] takes off is the last one. *)
Lemma dedup_spec (words : list str) d ws :
  dedup words = Ok (d, ws) →
  (d = None ∧ ws = words) ∨ (∃ w, d = Some w ∧ words = ws ++ [w]).
Proof.
  unfold dedup. case_bool_decide as Hlen; [|intros [= <- <-]; by left].
  destruct words as [|x l _] using rev_ind; [cbn in Hlen; lia|].
  rewrite ?getitem_last, ?bind_Ok_l.
  destruct (getitem (l ++ [x]) (-2)) as [w2| |]; [|done..].
  rewrite ?bind_Ok_l, ?getitem_last, ?bind_Ok_l. case_bool_decide.
  { rewrite ?getitem_last, ?bind_Ok_l, but_last_snoc.
    intros [= <- <-]. right. by exists x. }
  destruct (getitem (l ++ [x]) 0) as [w0| |]; [|done..].
  rewrite ?bind_Ok_l, ?getitem_last, ?bind_Ok_l. case_bool_decide.
  { rewrite ?getitem_last, ?bind_Ok_l, but_last_snoc.
    intros [= <- <-]. right. by exists x. }
  intros [= <- <-]. by left.
Qed.

(** X11: the capacity split loses no word.  When the split applies, the
    words of the event followed by the words of the studio are the words of
    the line before its last opening parenthesis followed by the words from
    that parenthesis on, in the same order: the duplicate test only moves
    the boundary between event and studio by one word. *)
Theorem capacity_split_keeps_words (line : str) (r r' : Rec.t) :
  capacity_split line r = Ok (Some r') →
  ∃ k, rfind line 40%N = Some k
       ∧ split_ws (Rec.event r') ++ split_ws (Rec.studio r')
         = split_ws (take k line) ++ split_ws (drop k line).
Proof.
  unfold capacity_split.
  destruct (rfind line 40%N) as [k|]; [|done].
  destruct (re_capacity (drop k line)); [|done].
  destruct (dedup (split_ws (strip (take k line)))) as [[d ws]| |] eqn:Hd;
    [|done..].
  rewrite bind_Ok_l. intros [= <-]. exists k. split; [done|].
  cbn [Rec.event Rec.studio Rec.set_event Rec.set_studio].
  pose proof (split_ws_words (strip (take k line))) as Hws.
  rewrite <- (split_ws_strip (take k line)), <- (split_ws_strip (drop k line)).
  destruct (dedup_spec _ _ _ Hd) as [[-> ->]|(w & -> & Hw)].
  - by rewrite split_ws_join.
  - rewrite Hw in Hws |- *. apply Forall_app in Hws as [Hws Hw1].
    apply Forall_inv in Hw1.
    assert (truthy w = true) as -> by (destruct Hw1 as [? _]; by destruct w).
    rewrite split_ws_join by done.
    rewrite split_ws_strip, split_ws_word_space by done.
    by rewrite split_ws_strip, <- app_assoc.
Qed.

(** The second line of scenario C. *)
Lemma capacity_split_keeps_words_witness :
  capacity_split (lit "Pilates Pilates (12)") (fresh_record [])
  = Ok (Some (Rec.set_studio (lit "Pilates (12)")
                (Rec.set_event (lit "Pilates") (fresh_record []))))
  ∧ ∃ k, rfind (lit "Pilates Pilates (12)") 40%N = Some k
         ∧ split_ws (lit "Pilates") ++ split_ws (lit "Pilates (12)")
           = split_ws (take k (lit "Pilates Pilates (12)"))
             ++ split_ws (drop k (lit "Pilates Pilates (12)")).
Proof.
  assert (capacity_split (lit "Pilates Pilates (12)") (fresh_record [])
          = Ok (Some (Rec.set_studio (lit "Pilates (12)")
                        (Rec.set_event (lit "Pilates") (fresh_record [])))))
    as H by (vm_compute; reflexivity).
  split; [exact H|].
  exact (capacity_split_keeps_words _ _ _ H).
Defined.

(** ** The event and the studio of an open record *)

(** X12: the event of an open record, once it has text, changes in one way
    only.  Whatever the line read, the event afterwards is the event before,
    with one space and the line appended when the line begins with an
    opening parenthesis, and the same event otherwise: neither the event
    rule, nor the capacity split, nor the triple, nor the studio rule
    touches an event that is not empty. *)
Theorem event_grows_by_paren_lines (lines : list str) raw j r r' j' (c : bool) :
  Rec.event r ≠ [] →
  record_line lines (strip raw) j r = Ok (r', j', c) →
  Rec.event r'
  = if startswith (strip raw) [40%N]
    then Rec.event r ++ space ++ strip raw else Rec.event r.
Proof.
  intros He. unfold record_line.
  destruct (startswith (strip raw) [40%N]); [by intros [= <- _ _]|].
  rewrite (bool_decide_eq_false_2 _ He). cbn [andb].
  rewrite bind_Ok_l.
  destruct (search_triple (strip raw)) as [idx|].
  - intros Hb. by destruct (triple_branch_frame _ _ _ _ _ _ _ _ Hb)
      as (_ & _ & _ & -> & _).
  - by intros [= <- _ _].
Qed.

(** A line of studio text under the record of scenario A. *)
Lemma event_grows_by_paren_lines_witness :
  Rec.event (fresh_record (lit "Spin Class")) ≠ []
  ∧ record_line [] (strip (lit "Studio A")) 0 (fresh_record (lit "Spin Class"))
    = Ok (Rec.set_studio (lit "Studio A") (fresh_record (lit "Spin Class")),
          0, false)
  ∧ Rec.event (Rec.set_studio (lit "Studio A") (fresh_record (lit "Spin Class")))
    = if startswith (strip (lit "Studio A")) [40%N]
      then Rec.event (fresh_record (lit "Spin Class")) ++ space
           ++ strip (lit "Studio A")
      else Rec.event (fresh_record (lit "Spin Class")).
Proof.
  assert (Rec.event (fresh_record (lit "Spin Class")) ≠ []) as H1
    by (vm_compute; discriminate).
  assert (record_line [] (strip (lit "Studio A")) 0
            (fresh_record (lit "Spin Class"))
          = Ok (Rec.set_studio (lit "Studio A")
                  (fresh_record (lit "Spin Class")), 0, false)) as H2
    by (vm_compute; reflexivity).
  split_and!; [exact H1 | exact H2 |].
  exact (event_grows_by_paren_lines [] (lit "Studio A") 0 _ _ 0 false H1 H2).
Defined.

(** X13: a line that no rule matches is studio text.  In a section, with a
    record open that has its event, a line that is not empty, is no line to
    skip, no header, no totals line and no time stamp, does not begin with
    a parenthesis and holds no triple, is appended to the studio after one
    space (or becomes the studio when there was none), also when it ends
    with a capacity marker; the record stays open and nothing is appended
    to the output. *)
Theorem plain_line_joins_studio (lines : list str) st raw d l r :
  lines !! i st = Some raw →
  truthy (strip raw) = true →
  bool_decide (strip raw ∈ skip_lines) = false →
  is_day_header (split_ws_1 (strip raw)) = Ok false →
  startswith (strip raw) (lit "Totals:") = false →
  re_time (strip raw) = false →
  startswith (strip raw) [40%N] = false →
  search_triple (strip raw) = None →
  current_date st = Some d → truthy d = true →
  current_record st = Some l → heap st !! l = Some r →
  Rec.event r ≠ [] →
  body lines st
  = Ok (mkState (S (i st)) (Some d) (Some l) (records st)
          (<[l := Rec.set_studio
                    (if truthy (Rec.studio r)
                     then strip (Rec.studio r ++ space ++ strip raw)
                     else strip raw) r]> (heap st))).
Proof.
  intros Hraw Ht Hsk Hh Hto Hti Hp Hs Hd Htd Hl Hlr He.
  rewrite (body_dispatch lines st raw Hraw Ht Hsk Hh Hto).
  rewrite Hd, Hl, Hti. change (date_active (Some d)) with (truthy d).
  rewrite Htd.
  erewrite update_record_eq; [|exact Hlr|].
  2:{ unfold record_line. rewrite Hp, (bool_decide_eq_false_2 _ He).
      cbn [andb]. rewrite bind_Ok_l, Hs. reflexivity. }
  cbn. by rewrite Hd, Hl.
Qed.

(** The line [Studio A] under the record of [18:30 Spin Class]. *)
Lemma plain_line_joins_studio_witness :
  studio_lines !! i flush_state = Some (lit "Studio A")
  ∧ body studio_lines flush_state
    = Ok (mkState (S (i flush_state)) (Some d0402) (Some 0) (records flush_state)
            (<[0 := Rec.set_studio
                      (if truthy (Rec.studio (fresh_record (lit "Spin Class")))
                       then strip (Rec.studio (fresh_record (lit "Spin Class"))
                                   ++ space ++ strip (lit "Studio A"))
                       else strip (lit "Studio A"))
                      (fresh_record (lit "Spin Class"))]>
               (heap flush_state))).
Proof.
  assert (studio_lines !! i flush_state = Some (lit "Studio A")) as H1
    by reflexivity.
  split; [exact H1|].
  apply (plain_line_joins_studio studio_lines flush_state (lit "Studio A")
           d0402 0 (fresh_record (lit "Spin Class")) H1).
  - vm_compute; reflexivity.
  - vm_compute; reflexivity.
  - vm_compute; reflexivity.
  - vm_compute; reflexivity.
  - vm_compute; reflexivity.
  - vm_compute; reflexivity.
  - vm_compute; reflexivity.
  - reflexivity.
  - vm_compute; reflexivity.
  - reflexivity.
  - reflexivity.
  - vm_compute; discriminate.
Defined.

(** X14: the first line of plain text is the event.  In a section, with a
    record open that has neither event nor studio yet, a line that is not
    empty, is no line to skip, no header, no totals line and no time stamp,
    does not begin with a parenthesis and holds neither a capacity marker at
    its end nor a triple, becomes the event as it is; the record stays open
    and nothing is appended to the output. *)
Theorem plain_line_sets_event (lines : list str) st raw d l r :
  lines !! i st = Some raw →
  truthy (strip raw) = true →
  bool_decide (strip raw ∈ skip_lines) = false →
  is_day_header (split_ws_1 (strip raw)) = Ok false →
  startswith (strip raw) (lit "Totals:") = false →
  re_time (strip raw) = false →
  startswith (strip raw) [40%N] = false →
  search_capacity (strip raw) = false →
  search_triple (strip raw) = None →
  current_date st = Some d → truthy d = true →
  current_record st = Some l → heap st !! l = Some r →
  Rec.event r = [] → Rec.studio r = [] →
  body lines st
  = Ok (mkState (S (i st)) (Some d) (Some l) (records st)
          (<[l := Rec.set_event (strip raw) r]> (heap st))).
Proof.
  intros Hraw Ht Hsk Hh Hto Hti Hp Hc Hs Hd Htd Hl Hlr He Hst.
  rewrite (body_dispatch lines st raw Hraw Ht Hsk Hh Hto).
  rewrite Hd, Hl, Hti. change (date_active (Some d)) with (truthy d).
  rewrite Htd.
  erewrite update_record_eq; [|exact Hlr|].
  2:{ unfold record_line.
      rewrite Hp, (bool_decide_eq_true_2 _ He), (bool_decide_eq_true_2 _ Hst).
      rewrite Hc, Hs. cbn [andb negb].
      rewrite bool_decide_eq_false_2 by (by intros [? ?]).
      reflexivity. }
  cbn. by rewrite Hd, Hl.
Qed.

(** The line [Spin Class] under the record of [18:30]. *)
Lemma plain_line_sets_event_witness :
  event_lines !! i pilates_state = Some (lit "Spin Class")
  ∧ body event_lines pilates_state
    = Ok (mkState (S (i pilates_state)) (Some d0402) (Some 0)
            (records pilates_state)
            (<[0 := Rec.set_event (strip (lit "Spin Class")) (fresh_record [])]>
               (heap pilates_state))).
Proof.
  assert (event_lines !! i pilates_state = Some (lit "Spin Class")) as H1
    by reflexivity.
  split; [exact H1|].
  apply (plain_line_sets_event event_lines pilates_state (lit "Spin Class")
           d0402 0 (fresh_record []) H1).
  - vm_compute; reflexivity.
  - vm_compute; reflexivity.
  - vm_compute; reflexivity.
  - vm_compute; reflexivity.
  - vm_compute; reflexivity.
  - vm_compute; reflexivity.
  - vm_compute; reflexivity.
  - vm_compute; reflexivity.
  - reflexivity.
  - vm_compute; reflexivity.
  - reflexivity.
  - reflexivity.
  - reflexivity.
  - reflexivity.
Defined.
